(** * matminer.featurizers.stats: the [PropertyStats] statistics

    A shallow embedding of [src/matminer/featurizers/stats.py].

    Numbers.  The module computes on IEEE doubles through Python and numpy.
    Rounding and overflow are not modelled: a finite number is a real, and
    arithmetic on finite numbers is exact, so the order in which a sum is
    taken does not matter and Python's [int] and [float] are one type.  What
    the code can observe of the special values is kept: NaN, the two
    infinities, the comparisons that are false on NaN, numpy's division by
    zero (an infinity or NaN) against Python's (an exception).  Zero carries
    no sign.  Comparisons of reals are decided with [Rlt_dec] and
    [Req_dec_T]; on a sample of numerals they are settled by [lra].

    Libraries.  numpy and scipy are no part of the repository; the functions
    called from them are embedded after their documented behaviour on
    one-dimensional arrays.

    Control.  A Python call either returns or raises; [result] keeps the
    exception raised.  numpy's warnings are not exceptions and are dropped. *)

From Stdlib Require Import Reals Lra List String Ascii ZArith Bool Lia.
From Stdlib Require Import Permutation Sorted.
Import ListNotations.

(** ** Exceptions and results *)

Inductive exn : Type :=
  | AttributeError
  | TypeError
  | ValueError
  | ZeroDivisionError
  | IndexError
  | OverflowError
  | LinAlgError.

Inductive result (A : Type) : Type :=
  | Ok (a : A)
  | Err (e : exn).

Arguments Ok {A} a.
Arguments Err {A} e.

Definition bind {A B : Type} (m : result A) (k : A -> result B) : result B :=
  match m with
  | Ok a => k a
  | Err e => Err e
  end.

Notation "x <- m ;; k" := (bind m (fun x => k))
  (at level 61, m at next level, right associativity).

Definition is_ok {A : Type} (m : result A) : bool :=
  match m with Ok _ => true | Err _ => false end.

(** ** Numbers *)

Inductive pyfloat : Type :=
  | Fin (r : R)
  | PInf
  | NInf
  | NaN.

Definition Rltb (a b : R) : bool := if Rlt_dec a b then true else false.
Definition Reqb (a b : R) : bool := if Req_dec_T a b then true else false.

Definition is_nan (x : pyfloat) : bool :=
  match x with NaN => true | _ => false end.

(** [x < y] and [x == y] as Python and numpy evaluate them on floats. *)
Definition flt (x y : pyfloat) : bool :=
  match x, y with
  | NaN, _ | _, NaN => false
  | Fin a, Fin b => Rltb a b
  | NInf, NInf => false
  | NInf, _ => true
  | _, NInf => false
  | PInf, _ => false
  | Fin _, PInf => true
  end.

Definition feq (x y : pyfloat) : bool :=
  match x, y with
  | Fin a, Fin b => Reqb a b
  | PInf, PInf => true
  | NInf, NInf => true
  | _, _ => false
  end.

Definition fle (x y : pyfloat) : bool := flt x y || feq x y.

Definition fneg (x : pyfloat) : pyfloat :=
  match x with
  | Fin r => Fin (- r)
  | PInf => NInf
  | NInf => PInf
  | NaN => NaN
  end.

Definition fabs (x : pyfloat) : pyfloat :=
  match x with
  | Fin r => Fin (Rabs r)
  | PInf | NInf => PInf
  | NaN => NaN
  end.

Definition fadd (x y : pyfloat) : pyfloat :=
  match x, y with
  | NaN, _ | _, NaN => NaN
  | Fin a, Fin b => Fin (a + b)
  | PInf, NInf | NInf, PInf => NaN
  | PInf, _ | _, PInf => PInf
  | NInf, _ | _, NInf => NInf
  end.

Definition fsub (x y : pyfloat) : pyfloat := fadd x (fneg y).

(** The sign of a real: [Lt] below zero, [Eq] at zero, [Gt] above. *)
Definition Rsign (r : R) : comparison :=
  if Rlt_dec r 0 then Lt else if Rlt_dec 0 r then Gt else Eq.

(** The product of an infinity, positive or not, and a number of the sign
    [c]: an infinity again, and NaN when the number is zero. *)
Definition inf_signed (positive : bool) (c : comparison) : pyfloat :=
  match c with
  | Eq => NaN
  | Gt => if positive then PInf else NInf
  | Lt => if positive then NInf else PInf
  end.

Definition fmul (x y : pyfloat) : pyfloat :=
  match x, y with
  | NaN, _ | _, NaN => NaN
  | Fin a, Fin b => Fin (a * b)
  | PInf, Fin b => inf_signed true (Rsign b)
  | NInf, Fin b => inf_signed false (Rsign b)
  | Fin a, PInf => inf_signed true (Rsign a)
  | Fin a, NInf => inf_signed false (Rsign a)
  | PInf, PInf | NInf, NInf => PInf
  | PInf, NInf | NInf, PInf => NInf
  end.

(** Division as numpy performs it: a zero divisor gives an infinity, or NaN
    for [0 / 0]; nothing is raised. *)
Definition fdiv (x y : pyfloat) : pyfloat :=
  match x, y with
  | NaN, _ | _, NaN => NaN
  | Fin a, Fin b =>
      if Reqb b 0 then inf_signed true (Rsign a) else Fin (a / b)
  | Fin _, (PInf | NInf) => Fin 0
  | PInf, Fin b => if Rltb b 0 then NInf else PInf
  | NInf, Fin b => if Rltb b 0 then PInf else NInf
  | (PInf | NInf), (PInf | NInf) => NaN
  end.

(** Division of two Python floats: a zero divisor raises. *)
Definition py_truediv (x y : pyfloat) : result pyfloat :=
  if feq y (Fin 0) then Err ZeroDivisionError else Ok (fdiv x y).

Definition fsqrt (x : pyfloat) : pyfloat :=
  match x with
  | Fin r => if Rltb r 0 then NaN else Fin (sqrt r)
  | PInf => PInf
  | NInf | NaN => NaN
  end.

Definition fexp (x : pyfloat) : pyfloat :=
  match x with
  | Fin r => Fin (exp r)
  | PInf => PInf
  | NInf => Fin 0
  | NaN => NaN
  end.

Definition flog (x : pyfloat) : pyfloat :=
  match x with
  | Fin r =>
      match Rsign r with
      | Gt => Fin (ln r)
      | Eq => NInf
      | Lt => NaN
      end
  | PInf => PInf
  | NInf | NaN => NaN
  end.

(** Whether a real is an integer, and which. *)
Definition Ris_int (r : R) : bool := Reqb (IZR (Int_part r)) r.

(** [pow x y] on finite arguments: exact integer powers of any base, the real
    power [exp (y * ln x)] of a positive base, and a NaN for a negative base
    under a fractional exponent. *)
Definition fpow_fin (a b : R) : pyfloat :=
  if Reqb b 0 then Fin 1
  else match Rsign a with
       | Gt => if Ris_int b then Fin (powerRZ a (Int_part b)) else Fin (Rpower a b)
       | Eq => if Rltb b 0 then PInf else Fin 0
       | Lt => if Ris_int b then Fin (powerRZ a (Int_part b)) else NaN
       end.

(** [pow] with the special values of C's [pow], which [numpy.power] calls. *)
Definition fpow (x y : pyfloat) : pyfloat :=
  match x, y with
  | _, Fin b =>
      if Reqb b 0 then Fin 1
      else match x with
           | Fin a => fpow_fin a b
           | PInf => if Rltb b 0 then Fin 0 else PInf
           | NInf =>
               if Rltb b 0 then Fin 0
               else if Ris_int b && Z.odd (Int_part b) then NInf else PInf
           | NaN => NaN
           end
  | Fin a, PInf =>
      if Reqb (Rabs a) 1 then Fin 1
      else if Rltb (Rabs a) 1 then Fin 0 else PInf
  | Fin a, NInf =>
      if Reqb (Rabs a) 1 then Fin 1
      else if Rltb (Rabs a) 1 then PInf else Fin 0
  | (PInf | NInf), PInf => PInf
  | (PInf | NInf), NInf => Fin 0
  | NaN, (PInf | NInf) => NaN
  | Fin a, NaN => if Reqb a 1 then Fin 1 else NaN
  | _, NaN => NaN
  end.

(** ** Strings *)

Local Open Scope string_scope.

(** [s.split("__")]: the tokens between the leftmost, non-overlapping
    occurrences of the delimiter. *)
Fixpoint split_dunder (s : string) : list string :=
  match s with
  | EmptyString => [EmptyString]
  | String "_" (String "_" rest) => EmptyString :: split_dunder rest
  | String c rest =>
      match split_dunder rest with
      | t :: ts => String c t :: ts
      | [] => [String c EmptyString]
      end
  end.

(** Whether the delimiter occurs in a string. *)
Fixpoint has_dunder (s : string) : bool :=
  match s with
  | String "_" (String "_" _) => true
  | String _ rest => has_dunder rest
  | EmptyString => false
  end.

(** *** [float(s)] on a string *)

(** The ASCII characters Python counts as whitespace. *)
Definition is_space (c : ascii) : bool :=
  let n := nat_of_ascii c in
  Nat.eqb n 32 || (Nat.leb 9 n && Nat.leb n 13) || (Nat.leb 28 n && Nat.leb n 31).

Definition digit_of (c : ascii) : option Z :=
  let n := nat_of_ascii c in
  if Nat.leb 48 n && Nat.leb n 57 then Some (Z.of_nat (n - 48)) else None.

Definition lower (c : ascii) : ascii :=
  let n := nat_of_ascii c in
  if Nat.leb 65 n && Nat.leb n 90 then ascii_of_nat (n + 32) else c.

Fixpoint lstrip (s : list ascii) : list ascii :=
  match s with
  | c :: t => if is_space c then lstrip t else s
  | [] => []
  end.

Definition strip (s : list ascii) : list ascii :=
  rev (lstrip (rev (lstrip s))).

(** The rest of a digit part, [("_"? digit)*], read into the number [acc] of
    [cnt] digits so far. *)
Fixpoint digitpart_tail (acc : Z) (cnt : Z) (s : list ascii) : Z * Z * list ascii :=
  match s with
  | c :: t =>
      match digit_of c with
      | Some d => digitpart_tail (10 * acc + d) (cnt + 1) t
      | None =>
          if Ascii.eqb c "_" then
            match t with
            | c2 :: t2 =>
                match digit_of c2 with
                | Some d => digitpart_tail (10 * acc + d) (cnt + 1) t2
                | None => (acc, cnt, s)
                end
            | [] => (acc, cnt, s)
            end
          else (acc, cnt, s)
      end
  | [] => (acc, cnt, s)
  end.

(** A digit part, [digit ("_"? digit)*], appended to the digits of [acc]. *)
Definition digitpart (acc : Z) (s : list ascii) : option (Z * Z * list ascii) :=
  match s with
  | c :: t =>
      match digit_of c with
      | Some d => Some (digitpart_tail (10 * acc + d) 1 t)
      | None => None
      end
  | [] => None
  end.

(** [number ::= [digitpart] "." digitpart | digitpart ["."]]: the digits read
    as one integer, and how many of them stand after the point. *)
Definition number (s : list ascii) : option (Z * Z * list ascii) :=
  match digitpart 0 s with
  | Some (m, _, rest) =>
      match rest with
      | "."%char :: rest' =>
          match digitpart m rest' with
          | Some r => Some r
          | None => Some (m, 0%Z, rest')
          end
      | _ => Some (m, 0%Z, rest)
      end
  | None =>
      match s with
      | "."%char :: rest' => digitpart 0 rest'
      | _ => None
      end
  end.

(** [exponent ::= ("e" | "E") ["+" | "-"] digitpart], absent when the input ends. *)
Definition exponent (s : list ascii) : option Z :=
  match s with
  | [] => Some 0%Z
  | c :: t =>
      if Ascii.eqb (lower c) "e" then
        let '(neg, t') :=
          match t with
          | "-"%char :: u => (true, u)
          | "+"%char :: u => (false, u)
          | _ => (false, t)
          end in
        match digitpart 0 t' with
        | Some (e, _, []) => Some (if neg then (- e)%Z else e)
        | _ => None
        end
      else None
  end.

Inductive float_literal : Type :=
  | LitNan
  | LitInf (neg : bool)
  | LitDec (neg : bool) (mantissa : Z) (exp10 : Z).

(** The grammar of [float()]'s string argument: surrounding whitespace is
    dropped, then [[sign] (floatnumber | "inf" | "infinity" | "nan")], the
    words in any case. *)
Definition parse_float (s : string) : option float_literal :=
  let body := strip (list_ascii_of_string s) in
  let '(neg, body) :=
    match body with
    | "-"%char :: u => (true, u)
    | "+"%char :: u => (false, u)
    | _ => (false, body)
    end in
  let word := string_of_list_ascii (map lower body) in
  if String.eqb word "nan" then Some LitNan
  else if String.eqb word "inf" || String.eqb word "infinity" then Some (LitInf neg)
  else
    match number body with
    | Some (m, frac, rest) =>
        match exponent rest with
        | Some e => Some (LitDec neg m (e - frac))
        | None => None
        end
    | None => None
    end.

Definition literal_value (l : float_literal) : pyfloat :=
  match l with
  | LitNan => NaN
  | LitInf neg => if neg then NInf else PInf
  | LitDec neg m e =>
      let v := (IZR m * powerRZ 10 e)%R in
      Fin (if neg then (- v)%R else v)
  end.

(** [float(s)]: the value of the literal, [ValueError] when [s] is none. *)
Definition py_float (s : string) : result pyfloat :=
  match parse_float s with
  | Some l => Ok (literal_value l)
  | None => Err ValueError
  end.

(** ** Python values and builtins *)

(** What the positional arguments of a statistic can hold. *)
Inductive value : Type :=
  | VNone
  | VStr (s : string)
  | VInt (z : Z)
  | VFloat (x : pyfloat)
  | VList (l : list pyfloat).

Definition of_weights (weights : option (list pyfloat)) : value :=
  match weights with
  | None => VNone
  | Some w => VList w
  end.

(** [min(l)]: the first element not undercut by a later one under [<]. *)
Fixpoint min_from (cur : pyfloat) (l : list pyfloat) : pyfloat :=
  match l with
  | [] => cur
  | x :: t => if flt x cur then min_from x t else min_from cur t
  end.

Definition py_min (l : list pyfloat) : result pyfloat :=
  match l with
  | [] => Err ValueError
  | x :: t => Ok (min_from x t)
  end.

(** [max(l)]: the first element not exceeded by a later one under [>]. *)
Fixpoint max_from (cur : pyfloat) (l : list pyfloat) : pyfloat :=
  match l with
  | [] => cur
  | x :: t => if flt cur x then max_from x t else max_from cur t
  end.

Definition py_max (l : list pyfloat) : result pyfloat :=
  match l with
  | [] => Err ValueError
  | x :: t => Ok (max_from x t)
  end.

(** [x in l] for a float [x] that is no element object of [l]: some element
    compares equal to it. *)
Definition py_in (x : pyfloat) (l : list pyfloat) : bool :=
  existsb (fun e => feq e x) l.

(** [float("nan") in l].  The call builds a new float object, so the identity
    test of [in] never succeeds and the outcome is that of [==]. *)
Definition nan_in (l : list pyfloat) : bool := py_in NaN l.

(** [sum(l)], from the integer 0. *)
Definition py_sum (l : list pyfloat) : pyfloat :=
  fold_left fadd l (Fin 0).

(** The elements of [set(l)]: one of each class of equal floats.  Every NaN
    of the list is taken to be an object of its own, so none merges. *)
Fixpoint py_set (l : list pyfloat) : list pyfloat :=
  match l with
  | [] => []
  | x :: t => if py_in x t then py_set t else x :: py_set t
  end.

(** [l[-n:]] for an integer [n]. *)
Definition last_n {A : Type} (n : Z) (l : list A) : list A :=
  let len := Z.of_nat (List.length l) in
  let start :=
    if (0 <? n)%Z then Z.max 0 (len - n)   (* a negative index counts from the end *)
    else Z.min len (- n) in
  skipn (Z.to_nat start) l.

(** ** numpy on one-dimensional arrays *)

Definition np_sum (a : list pyfloat) : pyfloat := fold_left fadd a (Fin 0).

Definition np_product (a : list pyfloat) : pyfloat := fold_left fmul a (Fin 1).

Definition len_float {A : Type} (a : list A) : pyfloat := Fin (INR (List.length a)).

(** [numpy.mean]: the sum over the count; NaN on an empty array. *)
Definition np_mean (a : list pyfloat) : pyfloat := fdiv (np_sum a) (len_float a).

(** A binary ufunc on two arrays: elementwise on equal lengths, an array of
    one element is stretched, other lengths do not broadcast. *)
Fixpoint map2 {A B C : Type} (f : A -> B -> C) (a : list A) (b : list B) : list C :=
  match a, b with
  | x :: a', y :: b' => f x y :: map2 f a' b'
  | _, _ => []
  end.

Definition broadcast2 (f : pyfloat -> pyfloat -> pyfloat) (a b : list pyfloat)
  : result (list pyfloat) :=
  if Nat.eqb (List.length a) (List.length b) then Ok (map2 f a b)
  else match a, b with
       | [x], _ => Ok (map (f x) b)
       | _, [y] => Ok (map (fun x => f x y) a)
       | _, _ => Err ValueError
       end.

(** [numpy.dot] of two vectors. *)
Definition np_dot (a b : list pyfloat) : result pyfloat :=
  if Nat.eqb (List.length a) (List.length b) then Ok (np_sum (map2 fmul a b))
  else Err ValueError.

(** [numpy.average(a, weights=w)]. *)
Definition np_average (a : list pyfloat) (weights : option (list pyfloat))
  : result pyfloat :=
  match weights with
  | None => Ok (np_mean a)
  | Some w =>
      if negb (Nat.eqb (List.length a) (List.length w)) then Err TypeError
      else
        let scl := np_sum w in
        if feq scl (Fin 0) then Err ZeroDivisionError
        else Ok (fdiv (np_sum (map2 fmul a w)) scl)
  end.

(** [numpy.std(a)]: the root of the mean squared deviation from the mean. *)
Definition np_std (a : list pyfloat) : pyfloat :=
  let arrmean := np_mean a in
  let x := map (fun v => fsub v arrmean) a in
  fsqrt (fdiv (np_sum (map (fun d => fmul d d) x)) (len_float a)).

(** [a.min()] and [a.max()] of an array: NaN when one element is NaN. *)
Definition np_min (a : list pyfloat) : result pyfloat :=
  match a with
  | [] => Err ValueError
  | x :: t => Ok (if existsb is_nan a then NaN else min_from x t)
  end.

Definition np_max (a : list pyfloat) : result pyfloat :=
  match a with
  | [] => Err ValueError
  | x :: t => Ok (if existsb is_nan a then NaN else max_from x t)
  end.

(** [numpy.isclose(a, b)] under the default tolerances
    [rtol = 1e-05] and [atol = 1e-08]. *)
Definition rtol : R := (1 / 100000)%R.
Definition atol : R := (1 / 100000000)%R.

Definition isclose (a b : pyfloat) : bool :=
  match a, b with
  | Fin x, Fin y => negb (Rltb (atol + rtol * Rabs y) (Rabs (x - y)))
  | _, _ => feq a b
  end.

(** [a[mask]] for a boolean mask of the array's length. *)
Fixpoint select (a : list pyfloat) (mask : list bool) : list pyfloat :=
  match a, mask with
  | x :: a', m :: mask' => if m then x :: select a' mask' else select a' mask'
  | _, _ => []
  end.

Definition bool_index (a : list pyfloat) (mask : list bool) : result (list pyfloat) :=
  if Nat.eqb (List.length a) (List.length mask) then Ok (select a mask) else Err IndexError.

(** The order of [numpy.sort]: ascending, every NaN last. *)
Definition sort_le (x y : pyfloat) : bool :=
  match x, y with
  | _, NaN => true
  | NaN, _ => false
  | _, _ => negb (flt y x)
  end.

Fixpoint insert_sorted (x : pyfloat) (l : list pyfloat) : list pyfloat :=
  match l with
  | [] => [x]
  | y :: t => if sort_le x y then x :: l else y :: insert_sorted x t
  end.

Definition np_sort (a : list pyfloat) : list pyfloat :=
  fold_right insert_sorted [] a.

(** [numpy.unique]: the sorted array with each run of equal elements
    shortened to one. *)
Fixpoint dedup (l : list pyfloat) : list pyfloat :=
  match l with
  | [] => []
  | x :: t =>
      match t with
      | y :: _ => if feq x y then dedup t else x :: dedup t
      | [] => [x]
      end
  end.

Definition np_unique (a : list pyfloat) : list pyfloat := dedup (np_sort a).

(** [numpy.arange(start, stop, step)] on Python floats: the length is the
    ceiling of [(stop - start) / step], taken with Python's division, and
    element [i] is [start + i * step]. *)
Definition Rceil (x : R) : Z :=
  if Ris_int x then Int_part x else (Int_part x + 1)%Z.

Definition np_arange (start stop step : pyfloat) : result (list pyfloat) :=
  q <- py_truediv (fsub stop start) step ;;
  match q with
  | NaN => Err ValueError
  | PInf | NInf => Err OverflowError
  | Fin r =>
      Ok (map (fun i => fadd start (fmul (Fin (INR i)) step))
              (seq 0 (Z.to_nat (Rceil r))))
  end.

(** [numpy.histogram(a, bins=edges)] for an array of edges: bin [i] counts
    the elements from edge [i] up to, and without, edge [i + 1]; the last bin
    holds its right edge too. *)
Definition in_bin (lo hi : pyfloat) (closed : bool) (v : pyfloat) : bool :=
  fle lo v && (if closed then fle v hi else flt v hi).

Definition count_if (p : pyfloat -> bool) (a : list pyfloat) : Z :=
  Z.of_nat (List.length (filter p a)).

Fixpoint hist_counts (a : list pyfloat) (edges : list pyfloat) : list Z :=
  match edges with
  | lo :: tl =>
      match tl with
      | hi :: rest =>
          count_if (in_bin lo hi (match rest with [] => true | _ => false end)) a
          :: hist_counts a tl
      | [] => []
      end
  | [] => []
  end.

Fixpoint increasing (edges : list pyfloat) : bool :=
  match edges with
  | x :: tl =>
      match tl with
      | y :: _ => negb (flt y x) && increasing tl
      | [] => true
      end
  | [] => true
  end.

Definition np_histogram (a edges : list pyfloat) : result (list Z * list pyfloat) :=
  match edges with
  | [] => Err IndexError
  | _ => if increasing edges then Ok (hist_counts a edges, edges) else Err ValueError
  end.

(** [numpy.argsort] of the counts: the indices in ascending order of count,
    equal counts in index order. *)
Fixpoint insert_by (p : Z * nat) (l : list (Z * nat)) : list (Z * nat) :=
  match l with
  | [] => [p]
  | q :: t => if (fst p <=? fst q)%Z then p :: l else q :: insert_by p t
  end.

Definition np_argsort (hist : list Z) : list nat :=
  map snd (fold_right insert_by [] (combine hist (seq 0 (List.length hist)))).

(** [bins[idx]] for an array of indices. *)
Fixpoint take_at (bins : list pyfloat) (idx : list nat) : result (list pyfloat) :=
  match idx with
  | [] => Ok []
  | i :: t =>
      match nth_error bins i with
      | Some b => rest <- take_at bins t ;; Ok (b :: rest)
      | None => Err IndexError
      end
  end.

(** [[float('NaN') for _ in range(k)]]. *)
Definition nans (k : Z) : list pyfloat := repeat NaN (Z.to_nat k).

Definition as_int (v : value) : result Z :=
  match v with
  | VInt z => Ok z
  | _ => Err TypeError
  end.

Definition as_number (v : value) : result pyfloat :=
  match v with
  | VInt z => Ok (Fin (IZR z))
  | VFloat x => Ok x
  | _ => Err TypeError
  end.

Fixpoint mapM {A B : Type} (f : A -> result B) (l : list A) : result (list B) :=
  match l with
  | [] => Ok []
  | x :: t => y <- f x ;; ys <- mapM f t ;; Ok (y :: ys)
  end.

(** ** scipy *)

(** [scipy.stats.mode(a).mode[0]]: the scores of [a] are visited in
    ascending order and a score replaces the kept one only on a strictly
    larger count. *)
Definition mode_step (a : list pyfloat) (st : pyfloat * Z) (score : pyfloat)
  : pyfloat * Z :=
  let c := count_if (fun v => feq v score) a in
  if (snd st <? c)%Z then (score, c) else st.

Definition scipy_mode (a : list pyfloat) : result pyfloat :=
  match a with
  | [] => Err IndexError
  | _ => Ok (fst (fold_left (mode_step a) (np_unique a) (Fin 0, 0%Z)))
  end.

(** [scipy.stats.mstats.gmean(a)]: the exponential of the mean logarithm. *)
Definition gmean (a : list pyfloat) : pyfloat := fexp (np_mean (map flog a)).

(** ** Arrays of any shape, for the kernel functions *)

Inductive array_kind : Type :=
  | KList      (* a (nested) Python list *)
  | KNdarray   (* a numpy.ndarray *)
  | KMatrix.   (* a numpy.matrix *)

(** An array-like input: its kind, its shape and its elements in row-major order. *)
Record array : Type := mkArray {
  kind : array_kind;
  shape : list nat;
  elems : list pyfloat
}.

Definition size_of (sh : list nat) : nat := fold_right Nat.mul 1%nat sh.

(** The shape two shapes broadcast to: aligned at the last axis, two extents
    agree when they are equal or one of them is 1. *)
Fixpoint broadcast_rev (a b : list nat) : option (list nat) :=
  match a, b with
  | [], s | s, [] => Some s
  | x :: a', y :: b' =>
      match broadcast_rev a' b' with
      | Some s =>
          if Nat.eqb x y then Some (x :: s)
          else if Nat.eqb x 1 then Some (y :: s)
          else if Nat.eqb y 1 then Some (x :: s)
          else None
      | None => None
      end
  end.

Definition broadcast_shape (a b : list nat) : option (list nat) :=
  option_map (@rev nat) (broadcast_rev (rev a) (rev b)).

(** A list cut into [k] consecutive pieces of [len] elements. *)
Fixpoint chunks (k len : nat) (l : list pyfloat) : list (list pyfloat) :=
  match k with
  | O => []
  | S k' => firstn len l :: chunks k' len (skipn len l)
  end.

(** The elements of an array of shape [sa] stretched to the shape [st] of the
    same rank. *)
Fixpoint stretch (sa st : list nat) (l : list pyfloat) : list pyfloat :=
  match sa, st with
  | da :: sa', dt :: st' =>
      let rows := map (stretch sa' st') (chunks da (size_of sa') l) in
      if Nat.eqb da dt then List.concat rows
      else List.concat (repeat (hd [] rows) dt)
  | _, _ => l
  end.

Definition pad_rank (rank : nat) (sh : list nat) : list nat :=
  (repeat 1%nat (rank - List.length sh) ++ sh)%list.

(** [arr0 - arr1].  Two lists have no subtraction; otherwise numpy subtracts
    elementwise after broadcasting, and the difference is a matrix as soon as
    one operand is, which a shape of more than two axes cannot be. *)
Definition array_sub (a b : array) : result array :=
  match kind a, kind b with
  | KList, KList => Err TypeError
  | ka, kb =>
      match broadcast_shape (shape a) (shape b) with
      | None => Err ValueError
      | Some sh =>
          let rank := List.length sh in
          let xs := stretch (pad_rank rank (shape a)) sh (elems a) in
          let ys := stretch (pad_rank rank (shape b)) sh (elems b) in
          let is_matrix :=
            match ka, kb with
            | KMatrix, _ | _, KMatrix => true
            | _, _ => false
            end in
          if is_matrix then
            if Nat.ltb 2 rank then Err ValueError
            else Ok (mkArray KMatrix sh (map2 fsub xs ys))
          else Ok (mkArray KNdarray sh (map2 fsub xs ys))
      end
  end.

(** [diff.A1]: the flattened elements, an attribute of matrices only. *)
Definition A1 (d : array) : result (list pyfloat) :=
  match kind d with
  | KMatrix => Ok (elems d)
  | _ => Err AttributeError
  end.

(** [numpy.linalg.norm(v, ord=1)] and [numpy.linalg.norm(v, ord=2)] of a vector. *)
Definition norm1 (v : list pyfloat) : pyfloat := np_sum (map fabs v).
Definition norm2 (v : list pyfloat) : pyfloat :=
  fsqrt (np_sum (map (fun x => fmul (fabs x) (fabs x)) v)).

(** ** The class [PropertyStats] *)

(** The [power] argument of [holder_mean]: a number, or the string
    [calc_stat] cut from the statistic's name. *)
Inductive power_arg : Type :=
  | PowNum (x : pyfloat)
  | PowStr (s : string).

Module PropertyStats.

Definition minimum (data_lst : list pyfloat) (weights : option (list pyfloat))
  : result pyfloat :=
  if negb (nan_in data_lst) then py_min data_lst else Ok NaN.

Definition maximum (data_lst : list pyfloat) (weights : option (list pyfloat))
  : result pyfloat :=
  if negb (nan_in data_lst) then py_max data_lst else Ok NaN.

Definition range (data_lst : list pyfloat) (weights : option (list pyfloat))
  : result pyfloat :=
  if negb (nan_in data_lst) then
    hi <- py_max data_lst ;;
    lo <- py_min data_lst ;;
    Ok (fsub hi lo)
  else Ok NaN.

Definition mean (data_lst : list pyfloat) (weights : option (list pyfloat))
  : result pyfloat :=
  np_average data_lst weights.

Definition inverse_mean (data_lst : list pyfloat) (weights : option (list pyfloat))
  : result pyfloat :=
  inv <- mapM (fun x => py_truediv (Fin 1) x) data_lst ;;
  mean inv weights.

Definition avg_dev (data_lst : list pyfloat) (weights : option (list pyfloat))
  : result pyfloat :=
  m <- mean data_lst weights ;;
  np_average (map (fun x => fabs (fsub x m)) data_lst) weights.

(** [beta = sum(w) / (sum(w) ** 2 - sum(w ** 2))]. *)
Definition beta_of (weights : list pyfloat) : pyfloat :=
  fdiv (np_sum weights)
       (fsub (fpow (np_sum weights) (Fin 2))
             (np_sum (map (fun w => fpow w (Fin 2)) weights))).

Definition std_dev (data_lst : list pyfloat) (weights : option (list pyfloat))
  : result pyfloat :=
  match weights with
  | None => Ok (np_std data_lst)
  | Some w =>
      let beta := beta_of w in
      m <- mean data_lst (Some w) ;;
      let dev := map (fun x => fpow (fsub x m) (Fin 2)) data_lst in
      d <- np_dot dev w ;;
      Ok (fsqrt (fmul beta d))
  end.

Definition mode (data_lst : list pyfloat) (weights : option (list pyfloat))
  : result pyfloat :=
  match weights with
  | None => scipy_mode data_lst
  | Some w =>
      wmax <- np_max w ;;
      let most_freq := map (fun x => isclose x wmax) w in
      chosen <- bool_index data_lst most_freq ;;
      np_min chosen
  end.

Definition n_numerical_modes (data_lst : list pyfloat) (n : value) (dl : value)
  : result (list pyfloat) :=
  if Nat.eqb (List.length (py_set data_lst)) 1 then
    match data_lst with
    | [] => Err IndexError
    | first :: _ =>
        k <- as_int n ;;
        Ok (first :: nans (k - 1))
    end
  else
    lo <- py_min data_lst ;;
    hi <- py_max data_lst ;;
    step <- as_number dl ;;
    edges <- np_arange lo hi step ;;
    hb <- np_histogram data_lst edges ;;
    k <- as_int n ;;
    modes <- take_at (snd hb) (rev (last_n k (np_argsort (fst hb)))) ;;
    Ok (modes ++ nans (k - Z.of_nat (List.length modes)))%list.

Definition holder_mean (data_lst : list pyfloat) (weights : option (list pyfloat))
  (power : power_arg) : result pyfloat :=
  power <- match power with
           | PowStr s => py_float s
           | PowNum x => Ok x
           end ;;
  match weights with
  | None =>
      if feq power (Fin 0) then Ok (gmean data_lst)
      else
        let m := np_mean (map (fun x => fpow x power) data_lst) in
        e <- py_truediv (Fin 1) power ;;
        Ok (fpow m e)
  | Some w =>
      let alpha := py_sum w in
      if feq power (Fin 0) then
        let share := map (fun x => fdiv x (np_sum w)) w in
        p <- broadcast2 fpow data_lst share ;;
        Ok (np_product p)
      else
        p <- broadcast2 fmul w (map (fun x => fpow x power) data_lst) ;;
        e <- py_truediv (Fin 1) power ;;
        Ok (fpow (fdiv (np_sum p) alpha) e)
  end.

Definition geom_std_dev (data_lst : list pyfloat) (weights : option (list pyfloat))
  : result pyfloat :=
  let w := match weights with
           | None => map (fun _ => Fin 1) data_lst
           | Some w => w
           end in
  m <- holder_mean data_lst (Some w) (PowNum (Fin 0)) ;;
  let beta := beta_of w in
  let dev := map (fun x => flog (fdiv x m)) data_lst in
  d <- np_dot w (map (fun x => fpow x (Fin 2)) dev) ;;
  Ok (fsqrt (fexp (fmul beta d))).

Definition sorted (data_lst : list pyfloat) : list pyfloat := np_sort data_lst.

(** [eigenvalues] of a one-dimensional [data_lst], the only kind this
    embedding holds: both of numpy's solvers refuse an array of fewer than
    two axes. *)
Definition eigenvalues (data_lst : list pyfloat) (symm sort : value)
  : result (list pyfloat) :=
  Err LinAlgError.

Definition flatten (data_lst : list pyfloat) : list pyfloat := data_lst.

Definition laplacian_kernel (arr0 arr1 : array) (SIGMA : pyfloat) : result pyfloat :=
  diff <- array_sub arr0 arr1 ;;
  v <- A1 diff ;;
  Ok (fexp (fdiv (fneg (norm1 v)) SIGMA)).

Definition gaussian_kernel (arr0 arr1 : array) (SIGMA : pyfloat) : result pyfloat :=
  diff <- array_sub arr0 arr1 ;;
  v <- A1 diff ;;
  Ok (fexp (fdiv (fdiv (fneg (fpow (norm2 v) (Fin 2))) (Fin 2))
                 (fpow SIGMA (Fin 2)))).

(** *** Calls through [calc_stat]

    [getattr(PropertyStats, name)(data_lst, weights, *params)]: an
    attribute bound to the two leading arguments and the strings that
    follow them.  An attribute that takes fewer or more positional
    arguments than it is given raises [TypeError] before its body runs. *)
Definition attribute : Type :=
  list pyfloat -> option (list pyfloat) -> list string -> result value.

Definition returns_float (r : result pyfloat) : result value :=
  x <- r ;; Ok (VFloat x).

Definition returns_list (r : result (list pyfloat)) : result value :=
  l <- r ;; Ok (VList l).

(** A statistic of the signature [(data_lst, weights=None)]. *)
Definition weighted_stat
  (f : list pyfloat -> option (list pyfloat) -> result pyfloat) : attribute :=
  fun data_lst weights params =>
    match params with
    | [] => returns_float (f data_lst weights)
    | _ => Err TypeError
    end.

(** A function of more parameters than [calc_stat] can fill, or of fewer. *)
Definition wrong_arity : attribute := fun _ _ _ => Err TypeError.

(** The attributes [getattr] resolves on the class: the seventeen methods
    of the class body, and [mro], which every class inherits from [type]. *)
Definition attributes : list (string * attribute) :=
  [ (* (data_lst, stat, weights=None): [stat] receives [weights], which is
       [None] or a list and has no [split] *)
    ("calc_stat",
      fun _ _ params =>
        match params with
        | [] | [_] => Err AttributeError
        | _ => Err TypeError
        end);
    ("minimum", weighted_stat minimum);
    ("maximum", weighted_stat maximum);
    ("range", weighted_stat range);
    ("mean", weighted_stat mean);
    ("inverse_mean", weighted_stat inverse_mean);
    ("avg_dev", weighted_stat avg_dev);
    ("std_dev", weighted_stat std_dev);
    ("geom_std_dev", weighted_stat geom_std_dev);
    ("mode", weighted_stat mode);
    (* (data_lst, n, dl=0.1): [weights] lands in [n] *)
    ("n_numerical_modes",
      fun data_lst weights params =>
        match params with
        | [] => returns_list
                  (n_numerical_modes data_lst (of_weights weights)
                                     (VFloat (Fin (1 / 10))))
        | [dl] => returns_list
                    (n_numerical_modes data_lst (of_weights weights) (VStr dl))
        | _ => Err TypeError
        end);
    (* (data_lst, weights=None, power=1) *)
    ("holder_mean",
      fun data_lst weights params =>
        match params with
        | [] => returns_float (holder_mean data_lst weights (PowNum (Fin 1)))
        | [p] => returns_float (holder_mean data_lst weights (PowStr p))
        | _ => Err TypeError
        end);
    (* (data_lst): the two leading arguments are one too many *)
    ("sorted", wrong_arity);
    (* (data_lst, symm=False, sort=False) *)
    ("eigenvalues",
      fun data_lst weights params =>
        match params with
        | [] => returns_list (eigenvalues data_lst (of_weights weights) (VInt 0))
        | [s] => returns_list (eigenvalues data_lst (of_weights weights) (VStr s))
        | _ => Err TypeError
        end);
    ("flatten", wrong_arity);
    (* (arr0, arr1, SIGMA): SIGMA is missing, or follows a surplus
       argument; when it is given, [arr0] is a list and [arr1] is [None] or
       a list, and neither pair has a subtraction *)
    ("laplacian_kernel", wrong_arity);
    ("gaussian_kernel", wrong_arity);
    (* [type.mro] takes no argument *)
    ("mro", wrong_arity) ].

Fixpoint lookup (name : string) (table : list (string * attribute))
  : option attribute :=
  match table with
  | [] => None
  | (k, f) :: rest => if String.eqb name k then Some f else lookup name rest
  end.

Definition getattr (name : string) : result attribute :=
  match lookup name attributes with
  | Some f => Ok f
  | None => Err AttributeError
  end.

Definition calc_stat (data_lst : list pyfloat) (stat : string)
  (weights : option (list pyfloat)) : result value :=
  match split_dunder stat with
  | [] => Err IndexError
  | name :: params =>
      f <- getattr name ;;
      f data_lst weights params
  end.

Definition attribute_names : list string := map fst attributes.

(** The statistics of the signature [(data_lst, weights=None[, power])]. *)
Definition weighted_names : list string :=
  [ "minimum"; "maximum"; "range"; "mean"; "inverse_mean"; "avg_dev";
    "std_dev"; "geom_std_dev"; "mode"; "holder_mean" ].

End PropertyStats.

(** ** The formulas of the specification, on reals *)

Local Open Scope R_scope.

Fixpoint Rsum (l : list R) : R :=
  match l with
  | [] => 0
  | x :: t => x + Rsum t
  end.

(** [sum(w_i * x_i) / sum(w_i)]. *)
Definition weighted_mean (xs ws : list R) : R :=
  Rsum (map2 Rmult ws xs) / Rsum ws.

Definition arithmetic_mean (xs : list R) : R :=
  Rsum xs / INR (List.length xs).

(** The population standard deviation: the squared deviations are divided by [n]. *)
Definition population_std (xs : list R) : R :=
  sqrt (Rsum (map (fun x => (x - arithmetic_mean xs) * (x - arithmetic_mean xs)) xs)
        / INR (List.length xs)).

(** [beta = sum(w) / (sum(w)^2 - sum(w^2))]. *)
Definition reliability_beta (ws : list R) : R :=
  Rsum ws / (Rsum ws * Rsum ws - Rsum (map (fun w => w * w) ws)).

(** [sum(w_i * (x_i - m)^2)] about the weighted mean [m]. *)
Definition weighted_sq_dev (xs ws : list R) : R :=
  Rsum (map2 (fun w x => w * ((x - weighted_mean xs ws) * (x - weighted_mean xs ws)))
             ws xs).

(** The reliability-weighted standard deviation, [sqrt(beta * sum(w_i (x_i - m)^2))]. *)
Definition reliability_std (xs ws : list R) : R :=
  sqrt (reliability_beta ws * weighted_sq_dev xs ws).

(** The population-weighted standard deviation, [sqrt(sum(w_i (x_i - m)^2) / sum(w_i))]. *)
Definition population_weighted_std (xs ws : list R) : R :=
  sqrt (weighted_sq_dev xs ws / Rsum ws).

(** How often a value occurs in a sample. *)
Definition occurrences (v : R) (xs : list R) : nat := count_occ Req_dec_T xs v.

(** Whether a weight is within numpy's tolerance of the largest weight. *)
Definition within_tolerance (wmax w : R) : Prop :=
  Rabs (w - wmax) <= atol + rtol * Rabs wmax.

(** The kernels, [exp(-|a - b|_1 / sigma)] and
    [exp(-|a - b|_2^2 / (2 * sigma^2))], on the elements of two arrays. *)
Definition l1_distance (xs ys : list R) : R :=
  Rsum (map2 (fun x y => Rabs (x - y)) xs ys).

Definition l2_distance (xs ys : list R) : R :=
  sqrt (Rsum (map2 (fun x y => (x - y) * (x - y)) xs ys)).

Definition laplacian_formula (xs ys : list R) (sigma : R) : R :=
  exp (- l1_distance xs ys / sigma).

Definition gaussian_formula (xs ys : list R) (sigma : R) : R :=
  exp (- (l2_distance xs ys * l2_distance xs ys) / (2 * (sigma * sigma))).

(** ** Predicates of the statements and their proofs *)

(** One step of [split_dunder] away from the delimiter. *)
Definition split_step (c : ascii) (rest : string) : list string :=
  match split_dunder rest with
  | t :: ts => String c t :: ts
  | [] => [String c EmptyString]
  end.

(** Whether a sample holds an entry equal to zero. *)
Definition has_zero (l : list pyfloat) : bool :=
  existsb (fun x => feq x (Fin 0)) l.

(** Ascending in the order of [numpy.sort], and strictly ascending under [<]. *)
Definition sorted_le : list pyfloat -> Prop :=
  StronglySorted (fun a b => sort_le a b = true).

Definition sorted_lt : list pyfloat -> Prop :=
  StronglySorted (fun a b => flt a b = true).

Definition nan_free (l : list pyfloat) : Prop :=
  Forall (fun x => is_nan x = false) l.

(** [sum(a == score)]: how many entries of a sample equal a score. *)
Definition score_count (l : list pyfloat) (p : pyfloat) : Z :=
  count_if (fun v => feq v p) l.

(** What the scan of [scipy_mode] holds after the scores [pre]: the first
    score of the largest count among them. *)
Definition mode_inv (l pre : list pyfloat) (st : pyfloat * Z) : Prop :=
  (pre = [] /\ snd st = 0%Z)
  \/ (In (fst st) pre
      /\ snd st = score_count l (fst st)
      /\ (forall p, In p pre -> (score_count l p <= snd st)%Z)
      /\ (forall p, In p pre -> score_count l p = snd st -> fle (fst st) p = true)).

(** [isclose] on finite numbers, read as a test on reals. *)
Definition closeb (wmax w : R) : bool :=
  negb (Rltb (atol + rtol * Rabs wmax) (Rabs (w - wmax))).

(** The entries chosen by the mask of close weights. *)
Definition chosen (wmax : R) (xs ws : list R) : list R :=
  map fst (filter (fun p => closeb wmax (snd p)) (combine xs ws)).

(** The order of [numpy.argsort] on pairs of a count and its index. *)
Definition by_count (p q : Z * nat) : Prop := (fst p <= fst q)%Z.

(** ** Further formulas *)

(** The weighted mean absolute deviation about the weighted mean,
    [sum(w_i * |x_i - m|) / sum(w_i)]. *)
Definition mean_abs_dev (xs ws : list R) : R :=
  weighted_mean (map (fun x => Rabs (x - weighted_mean xs ws)) xs) ws.

(** The same about the arithmetic mean, every weight one. *)
Definition mean_abs_dev_uniform (xs : list R) : R :=
  arithmetic_mean (map (fun x => Rabs (x - arithmetic_mean xs)) xs).

Fixpoint Rprod (l : list R) : R :=
  match l with
  | [] => 1
  | x :: t => x * Rprod t
  end.

(** The weighted geometric mean, [prod(x_i ^ (w_i / sum(w)))], as the
    exponential of the weighted mean logarithm. *)
Definition geometric_mean (xs ws : list R) : R :=
  exp (Rsum (map2 (fun w x => w * ln x) ws xs) / Rsum ws).

(** The sample standard deviation: the squared deviations are divided by [n - 1]. *)
Definition sample_std (xs : list R) : R :=
  sqrt (Rsum (map (fun x => (x - arithmetic_mean xs) * (x - arithmetic_mean xs)) xs)
        / (INR (List.length xs) - 1)).

(** [sum(w_i * ln(x_i / g)^2)] about the geometric mean [g]. *)
Definition weighted_sq_log_dev (xs ws : list R) : R :=
  Rsum (map2 Rmult ws
          (map (fun x => ln (x / geometric_mean xs ws) * ln (x / geometric_mean xs ws))
               xs)).

(** ["__".join(tokens)]. *)
Fixpoint join_dunder (tokens : list string) : string :=
  match tokens with
  | [] => EmptyString
  | t :: ts =>
      match ts with
      | [] => t
      | _ :: _ => (t ++ "__" ++ join_dunder ts)%string
      end
  end.


(** * Properties *)

(** ** Deciding comparisons of reals *)

Lemma Rltb_true (a b : R) : a < b -> Rltb a b = true.
Proof. intros H. unfold Rltb. destruct (Rlt_dec a b); [reflexivity | contradiction]. Qed.

Lemma Rltb_false (a b : R) : b <= a -> Rltb a b = false.
Proof. intros H. unfold Rltb. destruct (Rlt_dec a b); [lra | reflexivity]. Qed.

Lemma Reqb_true (a b : R) : a = b -> Reqb a b = true.
Proof. intros H. unfold Reqb. destruct (Req_dec_T a b); [reflexivity | contradiction]. Qed.

Lemma Reqb_false (a b : R) : a <> b -> Reqb a b = false.
Proof. intros H. unfold Reqb. destruct (Req_dec_T a b); [contradiction | reflexivity]. Qed.

Lemma Reqb_refl (a : R) : Reqb a a = true.
Proof. apply Reqb_true. reflexivity. Qed.

Lemma Reqb_eq (a b : R) : Reqb a b = true <-> a = b.
Proof.
  unfold Reqb. destruct (Req_dec_T a b); split; intros; congruence.
Qed.

Lemma Rltb_lt (a b : R) : Rltb a b = true <-> a < b.
Proof.
  unfold Rltb. destruct (Rlt_dec a b); split; intros; try assumption; try reflexivity;
    [discriminate | contradiction].
Qed.

Lemma Rsign_pos (r : R) : 0 < r -> Rsign r = Gt.
Proof.
  intros H. unfold Rsign.
  destruct (Rlt_dec r 0); [lra |]. destruct (Rlt_dec 0 r); [reflexivity | lra].
Qed.

Lemma Rsign_neg (r : R) : r < 0 -> Rsign r = Lt.
Proof. intros H. unfold Rsign. destruct (Rlt_dec r 0); [reflexivity | lra]. Qed.

Lemma Rsign_zero : Rsign 0 = Eq.
Proof.
  unfold Rsign. destruct (Rlt_dec 0 0); [lra |]. reflexivity.
Qed.

Lemma Int_part_IZR (z : Z) : Int_part (IZR z) = z.
Proof. symmetry. apply Int_part_spec. lra. Qed.

Lemma Ris_int_IZR (z : Z) : Ris_int (IZR z) = true.
Proof. unfold Ris_int. rewrite Int_part_IZR. apply Reqb_refl. Qed.

Lemma Int_part_half : Int_part (1 / 2) = 0%Z.
Proof. symmetry. apply Int_part_spec. lra. Qed.

(** Comparisons of numerals, settled by linear arithmetic. *)
Ltac decide_reals :=
  repeat match goal with
    | |- context [Rltb ?a ?b] =>
        first [ rewrite (Rltb_true a b) by lra | rewrite (Rltb_false a b) by lra ]
    | |- context [Reqb ?a ?b] =>
        first [ rewrite (Reqb_true a b) by lra | rewrite (Reqb_false a b) by lra ]
    | |- context [Rsign ?a] =>
        first [ rewrite (Rsign_pos a) by lra | rewrite (Rsign_neg a) by lra
              | replace (Rsign a) with Eq by (replace a with 0 by lra; symmetry; apply Rsign_zero) ]
    | |- context [Rabs ?a] =>
        first [ rewrite (Rabs_pos_eq a) by lra | rewrite (Rabs_left a) by lra ]
    end.

(** Evaluation of the embedding on a sample of numerals: the control flow by
    computation, each comparison of reals by [decide_reals]. *)
Ltac run :=
  repeat (progress
            (cbn -[Rltb Reqb Rsign Rplus Rmult Rminus Rdiv Rinv Ropp Rabs IZR
                   Ris_int Int_part Rceil sqrt exp ln Rpower powerRZ atol rtol];
             decide_reals)).

(** ** The delimiter *)

Local Open Scope string_scope.

Lemma split_dunder_cons (c : ascii) (rest : string) :
  (c = "_"%char /\ exists r, rest = String "_" r)
  \/ (split_dunder (String c rest) = split_step c rest
      /\ has_dunder (String c rest) = has_dunder rest).
Proof.
  destruct c as [[] [] [] [] [] [] [] []]; try (right; split; reflexivity).
  destruct rest as [| c2 r]; [right; split; reflexivity |].
  destruct c2 as [[] [] [] [] [] [] [] []]; try (right; split; reflexivity).
  left. split; [reflexivity | exists r; reflexivity].
Qed.

Lemma split_dunder_not_nil (s : string) : split_dunder s <> [].
Proof.
  induction s as [| c rest IH]; [discriminate |].
  destruct (split_dunder_cons c rest) as [[-> [r ->]] | [E _]].
  - discriminate.
  - rewrite E. unfold split_step. destruct (split_dunder rest); discriminate.
Qed.

(** A string free of the delimiter is its own single token. *)
Lemma split_dunder_plain (s : string) :
  has_dunder s = false -> split_dunder s = [s].
Proof.
  induction s as [| c rest IH]; intros H; [reflexivity |].
  destruct (split_dunder_cons c rest) as [[-> [r ->]] | [E Hd]].
  - discriminate H.
  - rewrite E. unfold split_step. rewrite IH by congruence. reflexivity.
Qed.

(** No token holds the delimiter. *)
Lemma split_dunder_tokens_plain (s : string) :
  Forall (fun t => has_dunder t = false) (split_dunder s).
Proof.
  induction s as [s IH] using (well_founded_induction
    (well_founded_ltof _ String.length)).
  destruct s as [| c rest]; [repeat constructor |].
  destruct (split_dunder_cons c rest) as [[-> [r ->]] | [E Hd]].
  - change (split_dunder (String "_" (String "_" r)))
      with (EmptyString :: split_dunder r).
    constructor; [reflexivity |]. apply IH. unfold ltof. simpl. lia.
  - rewrite E. unfold split_step.
    assert (Hrest : Forall (fun t => has_dunder t = false) (split_dunder rest))
      by (apply IH; unfold ltof; simpl; lia).
    destruct (split_dunder rest) as [| t ts] eqn:Et.
    + exfalso. exact (split_dunder_not_nil rest Et).
    + inversion Hrest as [| ? ? Ht Hts]; subst. constructor; [| assumption].
      (* the head token grows by one character that opens no delimiter *)
      destruct (split_dunder_cons c t) as [[-> [r ->]] | [_ Hd']].
      * (* [t] starts with an underscore: then so does [rest], against [E] *)
        exfalso.
        destruct rest as [| c2 r2]; [discriminate Et |].
        destruct (split_dunder_cons c2 r2) as [[-> [r3 ->]] | [E2 _]].
        -- simpl in Et. discriminate Et.
        -- pose proof E2 as E2'. rewrite E2 in Et. unfold split_step in Et.
           destruct (split_dunder r2) eqn:Er2; inversion Et; subst;
             unfold split_step in E; rewrite E2' in E; unfold split_step in E;
             rewrite Er2 in E; simpl in E; discriminate E.
      * rewrite Hd'. exact Ht.
Qed.

(** ** Powers *)

Local Open Scope R_scope.

Lemma fpow_one (x : pyfloat) : fpow x (Fin 1) = x.
Proof.
  unfold fpow, fpow_fin. decide_reals.
  replace 1 with (IZR 1) by reflexivity.
  rewrite Ris_int_IZR, Int_part_IZR. simpl.
  destruct x as [a | | |]; try reflexivity.
  unfold Rsign. destruct (Rlt_dec a 0); [f_equal; lra |].
  destruct (Rlt_dec 0 a); f_equal; lra.
Qed.

Lemma fpow_two (a : R) : fpow (Fin a) (Fin 2) = Fin (a * a).
Proof.
  unfold fpow, fpow_fin. decide_reals.
  replace 2 with (IZR 2) by reflexivity.
  rewrite Ris_int_IZR, Int_part_IZR. simpl.
  unfold Rsign. destruct (Rlt_dec a 0); [f_equal; lra |].
  destruct (Rlt_dec 0 a); f_equal; nra.
Qed.

Lemma fpow_half (a : R) : 0 < a -> fpow (Fin a) (Fin (1 / 2)) = Fin (sqrt a).
Proof.
  intros Ha. unfold fpow, fpow_fin. decide_reals.
  unfold Ris_int. rewrite Int_part_half. decide_reals.
  f_equal. replace (1 / 2) with (/ 2) by lra. apply Rpower_sqrt. exact Ha.
Qed.

(** ** [calc_stat] *)

Import PropertyStats.

Lemma lookup_absent (name : string) (table : list (string * attribute)) :
  ~ In name (map fst table) -> lookup name table = None.
Proof.
  induction table as [| [k f] rest IH]; intros H; [reflexivity |].
  simpl. destruct (String.eqb name k) eqn:E.
  - apply String.eqb_eq in E. exfalso. apply H. left. symmetry. exact E.
  - apply IH. intros Hin. apply H. right. exact Hin.
Qed.


Lemma calc_stat_name_params (data_lst : list pyfloat) (stat : string)
  (weights : option (list pyfloat)) :
  calc_stat data_lst stat weights =
  (f <- getattr (hd EmptyString (split_dunder stat)) ;;
   f data_lst weights (tl (split_dunder stat))).
Proof.
  unfold calc_stat. destruct (split_dunder stat) eqn:E; [| reflexivity].
  exfalso. exact (split_dunder_not_nil stat E).
Qed.

Lemma parse_float_2 : parse_float "2" = Some (LitDec false 2 0).
Proof. vm_compute. reflexivity. Qed.

Lemma py_float_2 : py_float "2" = Ok (Fin 2).
Proof.
  unfold py_float. rewrite parse_float_2. simpl. f_equal. f_equal. lra.
Qed.

Lemma holder_mean_coerces (data_lst : list pyfloat) (weights : option (list pyfloat))
  (p : string) :
  holder_mean data_lst weights (PowStr p) =
  (x <- py_float p ;; holder_mean data_lst weights (PowNum x)).
Proof. unfold holder_mean. destruct (py_float p); reflexivity. Qed.

Lemma mean_1_4_9 : np_mean [Fin 1; Fin 4; Fin 9] = Fin (14 / 3).
Proof.
  unfold np_mean, np_sum, len_float. simpl. decide_reals. f_equal. lra.
Qed.

(** C1.  [calc_stat] cuts the statistic's name at ["__"]: the first token is
    looked up on the class and the others follow [data_lst] and [weights] as
    strings.  [calc_stat(values, "minimum")] is [minimum(values)] for every
    sample; a parameter after ["holder_mean__"] reaches [holder_mean] as a
    string, which [holder_mean] turns into a float; and so
    [calc_stat([1,2,3], "holder_mean__2")] is [sqrt(mean([1,4,9]))], the
    quadratic mean. *)
Theorem calc_stat_parses_identifier :
  (forall data_lst stat weights,
      calc_stat data_lst stat weights =
      (f <- getattr (hd EmptyString (split_dunder stat)) ;;
       f data_lst weights (tl (split_dunder stat))))
  /\ (forall stat, Forall (fun t => has_dunder t = false) (split_dunder stat))
  /\ (forall data_lst weights,
         calc_stat data_lst "minimum" weights = returns_float (minimum data_lst weights))
  /\ calc_stat [Fin 1; Fin 2; Fin 3] "minimum" None = Ok (VFloat (Fin 1))
  /\ (forall data_lst weights p,
         has_dunder p = false ->
         calc_stat data_lst ("holder_mean__" ++ p) weights =
         returns_float (holder_mean data_lst weights (PowStr p)))
  /\ (forall data_lst weights p,
         holder_mean data_lst weights (PowStr p) =
         (x <- py_float p ;; holder_mean data_lst weights (PowNum x)))
  /\ py_float "2" = Ok (Fin 2)
  /\ calc_stat [Fin 1; Fin 2; Fin 3] "holder_mean__2" None =
     Ok (VFloat (fsqrt (np_mean [Fin 1; Fin 4; Fin 9])))
  /\ fsqrt (np_mean [Fin 1; Fin 4; Fin 9]) = Fin (sqrt (14 / 3)).
Proof.
  assert (Hparam : forall data_lst weights p,
             has_dunder p = false ->
             calc_stat data_lst ("holder_mean__" ++ p) weights =
             returns_float (holder_mean data_lst weights (PowStr p))).
  { intros d w p Hp. unfold calc_stat.
    change (split_dunder ("holder_mean__" ++ p))
      with ("holder_mean"%string :: split_dunder p).
    rewrite (split_dunder_plain p Hp). reflexivity. }
  assert (Hroot : fsqrt (np_mean [Fin 1; Fin 4; Fin 9]) = Fin (sqrt (14 / 3))).
  { rewrite mean_1_4_9. unfold fsqrt. decide_reals. reflexivity. }
  split; [apply calc_stat_name_params |].
  split; [apply split_dunder_tokens_plain |].
  split; [reflexivity |].
  split.
  { change (calc_stat [Fin 1; Fin 2; Fin 3] "minimum" None)
      with (returns_float (minimum [Fin 1; Fin 2; Fin 3] None)).
    unfold minimum, nan_in, py_in. run. reflexivity. }
  split; [exact Hparam |].
  split; [apply holder_mean_coerces |].
  split; [exact py_float_2 |].
  split; [| exact Hroot].
  rewrite Hroot.
  change "holder_mean__2"%string with ("holder_mean__" ++ "2")%string.
  rewrite Hparam by reflexivity.
  rewrite holder_mean_coerces, py_float_2.
  unfold holder_mean, returns_float, bind, py_truediv. simpl feq.
  decide_reals. cbn [map]. rewrite !fpow_two.
  replace [Fin (1 * 1); Fin (2 * 2); Fin (3 * 3)] with [Fin 1; Fin 4; Fin 9]
    by (repeat f_equal; lra).
  rewrite mean_1_4_9. unfold fdiv. decide_reals.
  rewrite fpow_half by lra. reflexivity.
Qed.

Lemma calc_stat_parses_identifier_witness :
  calc_stat [Fin 1; Fin 2; Fin 3] ("holder_mean__" ++ "2") None =
  returns_float (holder_mean [Fin 1; Fin 2; Fin 3] None (PowStr "2")).
Proof.
  apply (proj1 (proj2 (proj2 (proj2 (proj2 calc_stat_parses_identifier))))).
  reflexivity.
Defined.

(** C9.  A name token that [getattr] does not resolve on the class makes
    [calc_stat] raise [AttributeError], whatever the sample and the weights:
    no value is returned. *)
Theorem calc_stat_unknown_statistic (data_lst : list pyfloat) (stat : string)
  (weights : option (list pyfloat)) :
  ~ In (hd EmptyString (split_dunder stat)) attribute_names ->
  calc_stat data_lst stat weights = Err AttributeError.
Proof.
  intros H. rewrite calc_stat_name_params. unfold getattr.
  rewrite (lookup_absent _ attributes H). reflexivity.
Qed.

Lemma calc_stat_unknown_statistic_witness :
  calc_stat [Fin 1; Fin 2; Fin 3] "not_a_stat" None = Err AttributeError.
Proof.
  apply calc_stat_unknown_statistic.
  simpl. intuition discriminate.
Defined.

(** ** Sums of finite numbers *)

Lemma fold_fadd_fin (xs : list R) (a : R) :
  fold_left fadd (map Fin xs) (Fin a) = Fin (a + Rsum xs).
Proof.
  revert a. induction xs as [| x t IH]; intros a; simpl.
  - f_equal. lra.
  - rewrite IH. f_equal. lra.
Qed.

Lemma np_sum_fin (xs : list R) : np_sum (map Fin xs) = Fin (Rsum xs).
Proof. unfold np_sum. rewrite fold_fadd_fin. f_equal. lra. Qed.

Lemma map2_fin (f : pyfloat -> pyfloat -> pyfloat) (g : R -> R -> R) :
  (forall a b, f (Fin a) (Fin b) = Fin (g a b)) ->
  forall xs ys, map2 f (map Fin xs) (map Fin ys) = map Fin (map2 g xs ys).
Proof.
  intros H. induction xs as [| x t IH]; intros [| y ys]; simpl; try reflexivity.
  rewrite H, IH. reflexivity.
Qed.

Lemma map2_length {A B C : Type} (f : A -> B -> C) (a : list A) (b : list B) :
  List.length a = List.length b -> List.length (map2 f a b) = List.length a.
Proof.
  revert b. induction a as [| x t IH]; intros [| y b] H; simpl in *;
    try reflexivity; try discriminate.
  f_equal. apply IH. lia.
Qed.

Lemma fdiv_fin (a b : R) : b <> 0 -> fdiv (Fin a) (Fin b) = Fin (a / b).
Proof. intros H. unfold fdiv. rewrite Reqb_false by exact H. reflexivity. Qed.

Lemma INR_length_pos {A : Type} (l : list A) : l <> [] -> 0 < INR (List.length l).
Proof.
  intros H. destruct l as [| x t]; [contradiction |].
  apply lt_0_INR. simpl. lia.
Qed.

Lemma fmul_comm (x y : pyfloat) : fmul x y = fmul y x.
Proof. destruct x, y; simpl; try reflexivity. f_equal. lra. Qed.

Lemma map2_fmul_comm (a b : list pyfloat) : map2 fmul a b = map2 fmul b a.
Proof.
  revert b. induction a as [| x t IH]; intros [| y b]; simpl; try reflexivity.
  rewrite fmul_comm, IH. reflexivity.
Qed.

Lemma fmul_one_r (x : pyfloat) : fmul x (Fin 1) = x.
Proof.
  destruct x; simpl; try reflexivity.
  - f_equal. lra.
  - rewrite Rsign_pos by lra. reflexivity.
  - rewrite Rsign_pos by lra. reflexivity.
Qed.

Lemma map2_fmul_ones (x : list pyfloat) :
  map2 fmul x (repeat (Fin 1) (List.length x)) = x.
Proof.
  induction x as [| a t IH]; simpl; [reflexivity |].
  rewrite fmul_one_r, IH. reflexivity.
Qed.

Lemma fold_fadd_ones (n : nat) (a : R) :
  fold_left fadd (repeat (Fin 1) n) (Fin a) = Fin (a + INR n).
Proof.
  revert a. induction n as [| n IH]; intros a.
  - simpl. f_equal. lra.
  - cbn [repeat fold_left fadd]. rewrite IH, S_INR. f_equal. lra.
Qed.

Lemma np_sum_ones (n : nat) : np_sum (repeat (Fin 1) n) = Fin (INR n).
Proof. unfold np_sum. rewrite fold_fadd_ones. f_equal. lra. Qed.

Lemma Rsum_squares_nonneg (f : R -> R) (xs : list R) :
  0 <= Rsum (map (fun x => f x * f x) xs).
Proof.
  induction xs as [| x t IH]; simpl; [lra |].
  pose proof (Rle_0_sqr (f x)) as H. unfold Rsqr in H. lra.
Qed.

(** ** [minimum], [maximum], [range] *)

Lemma feq_nan_r (e : pyfloat) : feq e NaN = false.
Proof. destruct e; reflexivity. Qed.

(** The test [float("nan") in data_lst] holds of no list. *)
Lemma nan_in_never (l : list pyfloat) : nan_in l = false.
Proof.
  unfold nan_in, py_in. induction l as [| x t IH]; [reflexivity |].
  simpl. rewrite feq_nan_r, IH. reflexivity.
Qed.

(** C2.  [minimum], [maximum] and [range] never read [weights], and they are
    Python's [min], [max] and [max - min] on every sample: the membership
    test for NaN never holds, so a NaN in the sample is not turned into a NaN
    result.  On [[1, nan]] they return 1, 1 and 0. *)
Theorem order_statistics_skip_nan_check :
  (forall data_lst weights,
      minimum data_lst weights = py_min data_lst
      /\ maximum data_lst weights = py_max data_lst
      /\ range data_lst weights =
         (hi <- py_max data_lst ;; lo <- py_min data_lst ;; Ok (fsub hi lo)))
  /\ minimum [Fin 1; NaN] None = Ok (Fin 1)
  /\ maximum [Fin 1; NaN] None = Ok (Fin 1)
  /\ range [Fin 1; NaN] None = Ok (Fin 0).
Proof.
  assert (H : forall data_lst weights,
             minimum data_lst weights = py_min data_lst
             /\ maximum data_lst weights = py_max data_lst
             /\ range data_lst weights =
                (hi <- py_max data_lst ;; lo <- py_min data_lst ;; Ok (fsub hi lo))).
  { intros d w. unfold minimum, maximum, range. rewrite nan_in_never.
    repeat split. }
  split; [exact H |].
  destruct (H [Fin 1; NaN] None) as [-> [-> ->]].
  split; [reflexivity |]. split; [reflexivity |].
  simpl. f_equal. f_equal. lra.
Qed.

(** ** [mean] and [holder_mean] *)

Lemma mean_fin (xs ws : list R) :
  List.length xs = List.length ws -> Rsum ws <> 0 ->
  mean (map Fin xs) (Some (map Fin ws)) = Ok (Fin (weighted_mean xs ws)).
Proof.
  intros Hlen Hw. unfold mean, np_average.
  rewrite !length_map, Hlen, Nat.eqb_refl. simpl negb. cbv iota.
  rewrite np_sum_fin. unfold feq. rewrite Reqb_false by exact Hw.
  rewrite (map2_fin fmul Rmult) by reflexivity.
  rewrite np_sum_fin, fdiv_fin by exact Hw.
  unfold weighted_mean. do 3 f_equal.
  clear. revert ws. induction xs as [| x t IH]; intros [| w ws]; simpl;
    try reflexivity.
  rewrite IH. lra.
Qed.

(** C8.  On a sample and weights of one length whose weights do not sum to
    zero, [holder_mean] of power 1 is [mean]; on finite numbers both are
    [sum(w_i * x_i) / sum(w_i)].  And [mean(x, None)] is [mean] under the
    weights [[1] * len(x)] for every non-empty [x]. *)
Theorem holder_mean_one_is_mean :
  (forall x w,
      List.length x = List.length w ->
      feq (np_sum w) (Fin 0) = false ->
      holder_mean x (Some w) (PowNum (Fin 1)) = mean x (Some w))
  /\ (forall xs ws,
         List.length xs = List.length ws ->
         Rsum ws <> 0 ->
         mean (map Fin xs) (Some (map Fin ws)) = Ok (Fin (weighted_mean xs ws)))
  /\ (forall x,
         x <> [] ->
         mean x None = mean x (Some (repeat (Fin 1) (List.length x)))).
Proof.
  split; [| split].
  - intros x w Hlen Hw.
    unfold holder_mean, mean, np_average, bind, py_truediv, py_sum.
    cbn [feq]. decide_reals.
    rewrite (map_ext _ (fun v => v) fpow_one), map_id.
    unfold broadcast2. rewrite <- Hlen, Nat.eqb_refl. cbn [negb].
    fold (np_sum w). rewrite Hw.
    unfold fdiv at 2. decide_reals.
    replace (1 / 1) with 1 by lra. rewrite fpow_one.
    rewrite (map2_fmul_comm w x). reflexivity.
  - exact mean_fin.
  - intros x Hx. unfold mean, np_average.
    rewrite repeat_length, Nat.eqb_refl. cbn [negb].
    rewrite np_sum_ones, map2_fmul_ones.
    pose proof (INR_length_pos x Hx) as Hpos.
    unfold feq. rewrite Reqb_false by lra.
    reflexivity.
Qed.

Lemma holder_mean_one_is_mean_witness :
  holder_mean [Fin 1; Fin 3] (Some [Fin 1; Fin 1]) (PowNum (Fin 1)) =
  mean [Fin 1; Fin 3] (Some [Fin 1; Fin 1]).
Proof.
  apply (proj1 holder_mean_one_is_mean).
  - reflexivity.
  - unfold np_sum. simpl. decide_reals. reflexivity.
Defined.

(** ** [inverse_mean] *)

Lemma reciprocals_raise (l : list pyfloat) :
  has_zero l = true ->
  mapM (fun x => py_truediv (Fin 1) x) l = Err ZeroDivisionError.
Proof.
  induction l as [| x t IH]; intros H; [discriminate |].
  simpl in H. simpl. unfold py_truediv at 1.
  destruct (feq x (Fin 0)); [reflexivity |].
  simpl in H. rewrite (IH H). reflexivity.
Qed.

Lemma reciprocals_return (l : list pyfloat) :
  has_zero l = false ->
  mapM (fun x => py_truediv (Fin 1) x) l = Ok (map (fdiv (Fin 1)) l).
Proof.
  induction l as [| x t IH]; intros H; [reflexivity |].
  simpl in H. apply orb_false_iff in H. destruct H as [Hx Ht].
  simpl. unfold py_truediv at 1. rewrite Hx. simpl. rewrite (IH Ht). reflexivity.
Qed.

Lemma has_zero_fin (xs : list R) :
  Forall (fun x => x <> 0) xs -> has_zero (map Fin xs) = false.
Proof.
  induction 1 as [| x t Hx _ IH]; [reflexivity |].
  simpl. rewrite Reqb_false by exact Hx. exact IH.
Qed.

Lemma map_fdiv_one_fin (xs : list R) :
  Forall (fun x => x <> 0) xs ->
  map (fdiv (Fin 1)) (map Fin xs) = map Fin (map (fun x => 1 / x) xs).
Proof.
  induction 1 as [| x t Hx _ IH]; [reflexivity |].
  cbn [map]. rewrite IH, fdiv_fin by exact Hx. reflexivity.
Qed.

(** C6, as the code has it.  [inverse_mean] is [mean] of the reciprocals
    [1.0 / x_i], and no test of its own stands before the division.  A zero
    entry makes Python's division raise [ZeroDivisionError]: no infinity
    reaches the mean.  Without a zero entry, finite samples and weights give
    [sum(w_i / x_i) / sum(w_i)]. *)
Theorem inverse_mean_of_reciprocals :
  (forall data_lst weights,
      inverse_mean data_lst weights =
      (inv <- mapM (fun x => py_truediv (Fin 1) x) data_lst ;; mean inv weights))
  /\ (forall data_lst weights,
         has_zero data_lst = true ->
         inverse_mean data_lst weights = Err ZeroDivisionError)
  /\ (forall data_lst weights,
         has_zero data_lst = false ->
         inverse_mean data_lst weights = mean (map (fdiv (Fin 1)) data_lst) weights)
  /\ (forall xs ws,
         Forall (fun x => x <> 0) xs ->
         List.length xs = List.length ws ->
         Rsum ws <> 0 ->
         inverse_mean (map Fin xs) (Some (map Fin ws)) =
         Ok (Fin (weighted_mean (map (fun x => 1 / x) xs) ws))).
Proof.
  split; [reflexivity |].
  split; [| split].
  - intros d w H. unfold inverse_mean. rewrite (reciprocals_raise d H). reflexivity.
  - intros d w H. unfold inverse_mean. rewrite (reciprocals_return d H). reflexivity.
  - intros xs ws Hx Hlen Hw. unfold inverse_mean.
    rewrite (reciprocals_return _ (has_zero_fin xs Hx)). cbn [bind].
    rewrite (map_fdiv_one_fin xs Hx).
    apply mean_fin; [rewrite length_map; exact Hlen | exact Hw].
Qed.

Lemma inverse_mean_of_reciprocals_witness :
  inverse_mean (map Fin [2; 4]) (Some (map Fin [1; 1])) =
  Ok (Fin (weighted_mean (map (fun x => 1 / x) [2; 4]) [1; 1])).
Proof.
  apply (proj2 (proj2 (proj2 inverse_mean_of_reciprocals))).
  - repeat constructor; lra.
  - reflexivity.
  - simpl. lra.
Defined.

(** C6, as the claim has it, fails on the sample [[0.0, 1.0]]: the call raises
    and returns no infinity. *)
Lemma inverse_mean_zero_raises :
  inverse_mean [Fin 0; Fin 1] None = Err ZeroDivisionError
  /\ inverse_mean [Fin 0; Fin 1] None <> Ok PInf.
Proof.
  assert (H : inverse_mean [Fin 0; Fin 1] None = Err ZeroDivisionError).
  { unfold inverse_mean. rewrite reciprocals_raise; [reflexivity |].
    unfold has_zero. simpl. rewrite Reqb_refl. reflexivity. }
  split; [exact H |]. rewrite H. discriminate.
Qed.

(** ** [std_dev] *)

Lemma np_mean_fin (xs : list R) :
  xs <> [] -> np_mean (map Fin xs) = Fin (arithmetic_mean xs).
Proof.
  intros Hx. unfold np_mean, len_float. rewrite np_sum_fin, length_map.
  pose proof (INR_length_pos xs Hx). rewrite fdiv_fin by lra. reflexivity.
Qed.

Lemma np_std_fin (xs : list R) :
  xs <> [] -> np_std (map Fin xs) = Fin (population_std xs).
Proof.
  intros Hx. unfold np_std. rewrite np_mean_fin by exact Hx.
  rewrite !map_map. cbn [fsub fneg fadd fmul].
  rewrite <- (map_map (fun x => (x + - arithmetic_mean xs) * (x + - arithmetic_mean xs)) Fin).
  rewrite np_sum_fin. unfold len_float. rewrite length_map.
  pose proof (INR_length_pos xs Hx) as Hn. rewrite fdiv_fin by lra.
  unfold fsqrt. rewrite Rltb_false; [reflexivity |].
  apply Rmult_le_pos.
  - apply (Rsum_squares_nonneg (fun x => x + - arithmetic_mean xs)).
  - left. apply Rinv_0_lt_compat. exact Hn.
Qed.

Lemma Rsum_map2_weighted (m : R) (xs ws : list R) :
  Rsum (map2 Rmult (map (fun x => (x + - m) * (x + - m)) xs) ws) =
  Rsum (map2 (fun w x => w * ((x - m) * (x - m))) ws xs).
Proof.
  revert ws. induction xs as [| x t IH]; intros [| w ws]; simpl; try reflexivity.
  rewrite IH. unfold Rminus. lra.
Qed.

Lemma Rsum_map2_nonneg (m : R) (xs ws : list R) :
  Forall (fun w => 0 <= w) ws ->
  0 <= Rsum (map2 (fun w x => w * ((x - m) * (x - m))) ws xs).
Proof.
  intros H. revert xs. induction H as [| w ws Hw _ IH]; intros [| x xs]; simpl;
    try lra.
  specialize (IH xs). pose proof (Rle_0_sqr (x - m)) as Hs. unfold Rsqr in Hs.
  pose proof (Rmult_le_pos _ _ Hw Hs). lra.
Qed.

Lemma Rsum_nonneg (ws : list R) : Forall (fun w => 0 <= w) ws -> 0 <= Rsum ws.
Proof. induction 1; simpl; lra. Qed.

(** C4.  Without weights [std_dev] is the population standard deviation of a
    non-empty finite sample, 2 on [[2,4,4,4,5,5,7,9]].  With non-negative
    weights of the sample's length whose [sum(w)^2] exceeds [sum(w^2)], it is
    [sqrt(beta * sum(w_i * (x_i - m)^2))] for
    [beta = sum(w) / (sum(w)^2 - sum(w^2))] and the weighted mean [m]; on
    [[1, 3]] with weights [[1, 1]] that is [sqrt 2], where the
    population-weighted deviation is 1. *)
Theorem std_dev_formulas :
  (forall xs, xs <> [] -> std_dev (map Fin xs) None = Ok (Fin (population_std xs)))
  /\ std_dev (map Fin [2; 4; 4; 4; 5; 5; 7; 9]) None = Ok (Fin 2)
  /\ (forall xs ws,
         List.length xs = List.length ws ->
         Forall (fun w => 0 <= w) ws ->
         Rsum (map (fun w => w * w) ws) < Rsum ws * Rsum ws ->
         std_dev (map Fin xs) (Some (map Fin ws)) = Ok (Fin (reliability_std xs ws)))
  /\ std_dev (map Fin [1; 3]) (Some (map Fin [1; 1])) = Ok (Fin (sqrt 2))
  /\ population_weighted_std [1; 3] [1; 1] = 1.
Proof.
  assert (Hpop : forall xs, xs <> [] ->
                   std_dev (map Fin xs) None = Ok (Fin (population_std xs))).
  { intros xs Hx. unfold std_dev. rewrite np_std_fin by exact Hx. reflexivity. }
  assert (Hrel : forall xs ws,
             List.length xs = List.length ws ->
             Forall (fun w => 0 <= w) ws ->
             Rsum (map (fun w => w * w) ws) < Rsum ws * Rsum ws ->
             std_dev (map Fin xs) (Some (map Fin ws)) = Ok (Fin (reliability_std xs ws))).
  { intros xs ws Hlen Hpos Hden.
    pose proof (Rsum_nonneg ws Hpos) as Hw0.
    pose proof (Rsum_squares_nonneg (fun w => w) ws) as Hsq.
    assert (Hw : Rsum ws <> 0) by nra.
    unfold std_dev, beta_of. rewrite np_sum_fin, fpow_two.
    rewrite map_map. cbn beta.
    rewrite (map_ext (fun x => fpow (Fin x) (Fin 2)) (fun x => Fin (x * x)))
      by (intros; apply fpow_two).
    rewrite <- (map_map (fun w => w * w) Fin), np_sum_fin.
    cbn [fsub fneg fadd]. rewrite fdiv_fin by lra.
    rewrite (mean_fin xs ws Hlen Hw). cbn [bind].
    rewrite map_map. cbn [fsub fneg fadd].
    rewrite (map_ext (fun x => fpow (Fin (x + - weighted_mean xs ws)) (Fin 2))
                     (fun x => Fin ((x + - weighted_mean xs ws)
                                    * (x + - weighted_mean xs ws))))
      by (intros; apply fpow_two).
    rewrite <- (map_map (fun x => (x + - weighted_mean xs ws)
                                  * (x + - weighted_mean xs ws)) Fin).
    unfold np_dot. rewrite !length_map, Hlen, Nat.eqb_refl.
    rewrite (map2_fin fmul Rmult) by reflexivity.
    rewrite np_sum_fin. cbn [bind fmul].
    rewrite Rsum_map2_weighted.
    fold (weighted_sq_dev xs ws).
    replace (Rsum ws / (Rsum ws * Rsum ws + - Rsum (map (fun w => w * w) ws)))
      with (reliability_beta ws) by (unfold reliability_beta, Rminus; reflexivity).
    unfold fsqrt. rewrite Rltb_false; [reflexivity |].
    apply Rmult_le_pos.
    - unfold reliability_beta. apply Rmult_le_pos; [exact Hw0 |].
      left. apply Rinv_0_lt_compat. lra.
    - apply Rsum_map2_nonneg. exact Hpos. }
  split; [exact Hpop |].
  split.
  { rewrite Hpop by discriminate. do 2 f_equal.
    unfold population_std.
    assert (Hm : arithmetic_mean [2; 4; 4; 4; 5; 5; 7; 9] = 5)
      by (unfold arithmetic_mean; simpl; field).
    rewrite Hm. simpl.
    replace ((2 - 5) * (2 - 5) + ((4 - 5) * (4 - 5) + ((4 - 5) * (4 - 5)
             + ((4 - 5) * (4 - 5) + ((5 - 5) * (5 - 5) + ((5 - 5) * (5 - 5)
             + ((7 - 5) * (7 - 5) + ((9 - 5) * (9 - 5) + 0))))))))
      with 32 by lra.
    replace (32 / (1 + 1 + 1 + 1 + 1 + 1 + 1 + 1)) with (2 * 2) by lra.
    apply sqrt_square. lra. }
  split; [exact Hrel |].
  assert (Hm : weighted_mean [1; 3] [1; 1] = 2)
    by (unfold weighted_mean; simpl; lra).
  assert (Hs : weighted_sq_dev [1; 3] [1; 1] = 2)
    by (unfold weighted_sq_dev; rewrite Hm; simpl; lra).
  split.
  - rewrite Hrel; [| reflexivity | repeat constructor; lra | simpl; lra].
    do 2 f_equal. unfold reliability_std. rewrite Hs. f_equal.
    unfold reliability_beta. simpl. lra.
  - unfold population_weighted_std. rewrite Hs. simpl.
    replace (2 / (1 + (1 + 0))) with 1 by lra. apply sqrt_1.
Qed.

Lemma std_dev_formulas_witness :
  std_dev (map Fin [1; 3]) (Some (map Fin [1; 1])) =
  Ok (Fin (reliability_std [1; 3] [1; 1])).
Proof.
  apply (proj1 (proj2 (proj2 std_dev_formulas))).
  - reflexivity.
  - repeat constructor; lra.
  - simpl. lra.
Defined.

(** ** Which attributes [calc_stat] can call *)

Lemma n_numerical_modes_needs_int (data_lst : list pyfloat) (n dl : value) :
  as_int n = Err TypeError ->
  exists e, n_numerical_modes data_lst n dl = Err e.
Proof.
  intros Hn. unfold n_numerical_modes.
  destruct (Nat.eqb (List.length (py_set data_lst)) 1).
  - destruct data_lst; [eexists; reflexivity |]. rewrite Hn. eexists; reflexivity.
  - destruct (py_min data_lst); [| eexists; reflexivity].
    destruct (py_max data_lst); [| eexists; reflexivity].
    destruct (as_number dl); [| eexists; reflexivity].
    cbn [bind]. destruct (np_arange _ _ _); [| eexists; reflexivity].
    cbn [bind]. destruct (np_histogram _ _); [| eexists; reflexivity].
    cbn [bind]. rewrite Hn. eexists; reflexivity.
Qed.

Lemma as_int_weights (weights : option (list pyfloat)) :
  as_int (of_weights weights) = Err TypeError.
Proof. destruct weights; reflexivity. Qed.

Lemma calc_stat_n_numerical_modes (data_lst : list pyfloat)
  (weights : option (list pyfloat)) :
  exists e, calc_stat data_lst "n_numerical_modes" weights = Err e.
Proof.
  destruct (n_numerical_modes_needs_int data_lst (of_weights weights)
              (VFloat (Fin (1 / 10))) (as_int_weights weights)) as [e He].
  exists e.
  change (calc_stat data_lst "n_numerical_modes" weights)
    with (returns_list (n_numerical_modes data_lst (of_weights weights)
                                          (VFloat (Fin (1 / 10))))).
  rewrite He. reflexivity.
Qed.

Lemma py_min_ok (l : list pyfloat) : l <> [] -> is_ok (py_min l) = true.
Proof. destruct l; [contradiction | reflexivity]. Qed.

Lemma py_max_ok (l : list pyfloat) : l <> [] -> is_ok (py_max l) = true.
Proof. destruct l; [contradiction | reflexivity]. Qed.

Lemma returns_float_ok (r : result pyfloat) :
  is_ok r = true -> is_ok (returns_float r) = true.
Proof. destruct r; [reflexivity | discriminate]. Qed.

Lemma holder_mean_none_one (data_lst : list pyfloat) :
  holder_mean data_lst None (PowNum (Fin 1)) = Ok (np_mean data_lst).
Proof.
  unfold holder_mean, bind, py_truediv. cbn [feq]. decide_reals.
  rewrite (map_ext _ (fun v => v) fpow_one), map_id.
  unfold fdiv at 1. decide_reals. replace (1 / 1) with 1 by lra.
  rewrite fpow_one. reflexivity.
Qed.

Lemma geom_std_dev_ok (data_lst : list pyfloat) :
  is_ok (geom_std_dev data_lst None) = true.
Proof.
  unfold geom_std_dev, holder_mean. cbn [bind feq]. rewrite Reqb_refl.
  unfold broadcast2. rewrite !length_map, Nat.eqb_refl. cbn [bind].
  unfold np_dot. rewrite !length_map, Nat.eqb_refl. reflexivity.
Qed.

(** C3, as the code has it.  The ten statistics of the signature
    [(data_lst, weights=None[, power])] are reached by [calc_stat] with
    their [weights], take [None] for it and then compute their unweighted
    formulas, and [calc_stat(values, name)] returns for each of them on
    every non-empty sample without a zero entry.  [sorted] has the one
    parameter [data_lst], and the second parameter of [n_numerical_modes] is
    the number of modes [n]: through [calc_stat] the first raises [TypeError]
    and the second raises on every sample. *)
Theorem weighted_statistics_accept_none :
  (forall data_lst weights,
      calc_stat data_lst "minimum" weights = returns_float (minimum data_lst weights)
      /\ calc_stat data_lst "maximum" weights = returns_float (maximum data_lst weights)
      /\ calc_stat data_lst "range" weights = returns_float (range data_lst weights)
      /\ calc_stat data_lst "mean" weights = returns_float (mean data_lst weights)
      /\ calc_stat data_lst "inverse_mean" weights
         = returns_float (inverse_mean data_lst weights)
      /\ calc_stat data_lst "avg_dev" weights = returns_float (avg_dev data_lst weights)
      /\ calc_stat data_lst "std_dev" weights = returns_float (std_dev data_lst weights)
      /\ calc_stat data_lst "geom_std_dev" weights
         = returns_float (geom_std_dev data_lst weights)
      /\ calc_stat data_lst "mode" weights = returns_float (mode data_lst weights)
      /\ calc_stat data_lst "holder_mean" weights
         = returns_float (holder_mean data_lst weights (PowNum (Fin 1))))
  /\ (forall data_lst,
         minimum data_lst None = py_min data_lst
         /\ maximum data_lst None = py_max data_lst
         /\ mean data_lst None = Ok (np_mean data_lst)
         /\ avg_dev data_lst None
            = Ok (np_mean (map (fun x => fabs (fsub x (np_mean data_lst))) data_lst))
         /\ std_dev data_lst None = Ok (np_std data_lst)
         /\ geom_std_dev data_lst None
            = geom_std_dev data_lst (Some (map (fun _ => Fin 1) data_lst))
         /\ mode data_lst None = scipy_mode data_lst
         /\ holder_mean data_lst None (PowNum (Fin 1)) = Ok (np_mean data_lst))
  /\ (forall name data_lst,
         In name weighted_names ->
         data_lst <> [] ->
         has_zero data_lst = false ->
         is_ok (calc_stat data_lst name None) = true)
  /\ (forall data_lst weights, calc_stat data_lst "sorted" weights = Err TypeError)
  /\ (forall data_lst weights,
         exists e, calc_stat data_lst "n_numerical_modes" weights = Err e).
Proof.
  split; [intros; repeat (split; [reflexivity |]); reflexivity |].
  split.
  { intros d. unfold minimum, maximum. rewrite nan_in_never. cbn [negb].
    repeat (split; [reflexivity |]). apply holder_mean_none_one. }
  split.
  { intros name d Hin Hd Hz. unfold weighted_names in Hin. cbn [In] in Hin.
    repeat (destruct Hin as [<- | Hin]); try contradiction.
    - change (is_ok (returns_float (minimum d None)) = true).
      apply returns_float_ok. unfold minimum. rewrite nan_in_never.
      apply py_min_ok. exact Hd.
    - change (is_ok (returns_float (maximum d None)) = true).
      apply returns_float_ok. unfold maximum. rewrite nan_in_never.
      apply py_max_ok. exact Hd.
    - change (is_ok (returns_float (range d None)) = true).
      unfold range. rewrite nan_in_never. destruct d; [contradiction | reflexivity].
    - reflexivity.
    - change (is_ok (returns_float (inverse_mean d None)) = true).
      unfold inverse_mean. rewrite (reciprocals_return d Hz). reflexivity.
    - reflexivity.
    - reflexivity.
    - change (is_ok (returns_float (geom_std_dev d None)) = true).
      apply returns_float_ok. apply geom_std_dev_ok.
    - change (is_ok (returns_float (mode d None)) = true).
      unfold mode, scipy_mode. destruct d; [contradiction | reflexivity].
    - change (is_ok (returns_float (holder_mean d None (PowNum (Fin 1)))) = true).
      rewrite holder_mean_none_one. reflexivity. }
  split; [reflexivity |].
  exact calc_stat_n_numerical_modes.
Qed.

Lemma weighted_statistics_accept_none_witness :
  is_ok (calc_stat [Fin 1; Fin 2; Fin 3] "std_dev" None) = true.
Proof.
  apply (proj1 (proj2 (proj2 weighted_statistics_accept_none))).
  - unfold weighted_names. cbn [In]. tauto.
  - discriminate.
  - unfold has_zero. simpl. decide_reals. reflexivity.
Defined.

(** C3, as the claim has it, fails on the sample [[1, 2, 3]]:
    [calc_stat] returns for neither ["sorted"] nor ["n_numerical_modes"]. *)
Lemma calc_stat_sorted_raises :
  calc_stat [Fin 1; Fin 2; Fin 3] "sorted" None = Err TypeError
  /\ is_ok (calc_stat [Fin 1; Fin 2; Fin 3] "n_numerical_modes" None) = false.
Proof.
  split; [reflexivity |].
  destruct (calc_stat_n_numerical_modes [Fin 1; Fin 2; Fin 3] None) as [e ->].
  reflexivity.
Qed.

(** ** The kernel functions *)

Lemma concat_chunks (k len : nat) (l : list pyfloat) :
  List.length l = (k * len)%nat -> List.concat (chunks k len l) = l.
Proof.
  revert l. induction k as [| k IH]; intros l H; simpl in *.
  - destruct l; [reflexivity | discriminate].
  - rewrite IH by (rewrite length_skipn; lia). apply firstn_skipn.
Qed.

Lemma chunks_lengths (k len : nat) (l : list pyfloat) :
  List.length l = (k * len)%nat ->
  Forall (fun c => List.length c = len) (chunks k len l).
Proof.
  revert l. induction k as [| k IH]; intros l H; simpl in *; constructor.
  - rewrite length_firstn. lia.
  - apply IH. rewrite length_skipn. lia.
Qed.

Lemma map_fixed {A : Type} (f : A -> A) (l : list A) :
  Forall (fun x => f x = x) l -> map f l = l.
Proof. induction 1 as [| x t Hx _ IH]; simpl; congruence. Qed.

(** An array stretched to its own shape is unchanged. *)
Lemma stretch_same (sh : list nat) (l : list pyfloat) :
  List.length l = size_of sh -> stretch sh sh l = l.
Proof.
  revert l. induction sh as [| d sh IH]; intros l H; [reflexivity |].
  cbn [stretch]. rewrite Nat.eqb_refl.
  rewrite map_fixed.
  - apply concat_chunks. exact H.
  - eapply Forall_impl; [| apply chunks_lengths; exact H].
    intros c Hc. apply IH. exact Hc.
Qed.

Lemma broadcast_rev_same (sh : list nat) : broadcast_rev sh sh = Some sh.
Proof.
  induction sh as [| d sh IH]; [reflexivity |].
  simpl. rewrite IH, Nat.eqb_refl. reflexivity.
Qed.

Lemma broadcast_shape_same (sh : list nat) : broadcast_shape sh sh = Some sh.
Proof.
  unfold broadcast_shape. rewrite broadcast_rev_same. simpl.
  rewrite rev_involutive. reflexivity.
Qed.

Lemma pad_rank_same (sh : list nat) : pad_rank (List.length sh) sh = sh.
Proof. unfold pad_rank. rewrite Nat.sub_diag. reflexivity. Qed.

(** The difference of two matrices of one shape, [rows] by [cols]. *)
Lemma matrix_sub (rows cols : nat) (xs ys : list pyfloat) :
  List.length xs = (rows * cols)%nat ->
  List.length ys = (rows * cols)%nat ->
  array_sub (mkArray KMatrix [rows; cols] xs) (mkArray KMatrix [rows; cols] ys) =
  Ok (mkArray KMatrix [rows; cols] (map2 fsub xs ys)).
Proof.
  intros Hx Hy. unfold array_sub. cbn [kind shape elems].
  rewrite broadcast_shape_same.
  change (List.length [rows; cols]) with 2%nat.
  change (pad_rank 2 [rows; cols]) with (pad_rank (List.length [rows; cols]) [rows; cols]).
  rewrite pad_rank_same.
  rewrite !stretch_same by (unfold size_of; simpl; lia).
  reflexivity.
Qed.

Lemma Rsum_abs_diff (xs ys : list R) :
  Rsum (map Rabs (map2 (fun x y => x + - y) xs ys)) = l1_distance xs ys.
Proof.
  unfold l1_distance. revert ys.
  induction xs as [| x t IH]; intros [| y ys]; simpl; try reflexivity.
  rewrite IH. reflexivity.
Qed.

Lemma Rsum_sq_diff (xs ys : list R) :
  Rsum (map (fun d => Rabs d * Rabs d) (map2 (fun x y => x + - y) xs ys)) =
  Rsum (map2 (fun x y => (x - y) * (x - y)) xs ys).
Proof.
  revert ys. induction xs as [| x t IH]; intros [| y ys]; simpl; try reflexivity.
  rewrite IH. f_equal.
  rewrite <- Rabs_mult. apply Rabs_pos_eq.
  pose proof (Rle_0_sqr (x + - y)) as H. exact H.
Qed.

Lemma Rsum_map2_sq_nonneg (xs ys : list R) :
  0 <= Rsum (map2 (fun x y => (x - y) * (x - y)) xs ys).
Proof.
  revert ys. induction xs as [| x t IH]; intros [| y ys]; simpl; try lra.
  specialize (IH ys). pose proof (Rle_0_sqr (x - y)) as H. unfold Rsqr in H. lra.
Qed.

(** C10.  The two kernels return only when the difference [arr0 - arr1] is a
    matrix.  With neither input a matrix the call raises: [TypeError] when
    both are lists, which have no subtraction, [ValueError] when the shapes do
    not broadcast, and otherwise [AttributeError], as the difference is an
    [ndarray] and has no [A1].  On two matrices of one shape the results are
    [exp(-|a - b|_1 / SIGMA)] and [exp(-|a - b|_2^2 / 2 / SIGMA^2)]. *)
Theorem kernels_need_matrix :
  (forall a b SIGMA,
      kind a <> KMatrix -> kind b <> KMatrix ->
      exists e,
        laplacian_kernel a b SIGMA = Err e /\ gaussian_kernel a b SIGMA = Err e
        /\ (e = TypeError \/ e = ValueError \/ e = AttributeError)
        /\ (e = TypeError <-> kind a = KList /\ kind b = KList)
        /\ (e = AttributeError <->
            (kind a = KNdarray \/ kind b = KNdarray)
            /\ broadcast_shape (shape a) (shape b) <> None))
  /\ (forall a b SIGMA r,
         laplacian_kernel a b SIGMA = Ok r \/ gaussian_kernel a b SIGMA = Ok r ->
         kind a = KMatrix \/ kind b = KMatrix)
  /\ (forall rows cols xs ys SIGMA,
         List.length xs = (rows * cols)%nat ->
         List.length ys = (rows * cols)%nat ->
         laplacian_kernel (mkArray KMatrix [rows; cols] xs)
                          (mkArray KMatrix [rows; cols] ys) SIGMA
         = Ok (fexp (fdiv (fneg (norm1 (map2 fsub xs ys))) SIGMA))
         /\ gaussian_kernel (mkArray KMatrix [rows; cols] xs)
                            (mkArray KMatrix [rows; cols] ys) SIGMA
            = Ok (fexp (fdiv (fdiv (fneg (fpow (norm2 (map2 fsub xs ys)) (Fin 2)))
                                   (Fin 2))
                             (fpow SIGMA (Fin 2)))))
  /\ (forall rows cols xs ys sigma,
         List.length xs = (rows * cols)%nat ->
         List.length ys = (rows * cols)%nat ->
         sigma <> 0 ->
         laplacian_kernel (mkArray KMatrix [rows; cols] (map Fin xs))
                          (mkArray KMatrix [rows; cols] (map Fin ys)) (Fin sigma)
         = Ok (Fin (laplacian_formula xs ys sigma))
         /\ gaussian_kernel (mkArray KMatrix [rows; cols] (map Fin xs))
                            (mkArray KMatrix [rows; cols] (map Fin ys)) (Fin sigma)
            = Ok (Fin (gaussian_formula xs ys sigma))).
Proof.
  assert (Hraise : forall a b SIGMA,
      kind a <> KMatrix -> kind b <> KMatrix ->
      exists e,
        laplacian_kernel a b SIGMA = Err e /\ gaussian_kernel a b SIGMA = Err e
        /\ (e = TypeError \/ e = ValueError \/ e = AttributeError)
        /\ (e = TypeError <-> kind a = KList /\ kind b = KList)
        /\ (e = AttributeError <->
            (kind a = KNdarray \/ kind b = KNdarray)
            /\ broadcast_shape (shape a) (shape b) <> None)).
  { intros [ka sa ea] [kb sb eb] SIGMA Ha Hb. cbn [kind shape] in *.
    unfold laplacian_kernel, gaussian_kernel, array_sub. cbn [kind shape elems].
    destruct ka, kb; try contradiction;
      try (exists TypeError; intuition (try discriminate; try congruence); fail);
      (destruct (broadcast_shape sa sb) as [sh |];
       [ exists AttributeError | exists ValueError ];
       cbn [bind A1 kind];
       intuition (try discriminate; try congruence)). }
  assert (Hmat : forall rows cols xs ys SIGMA,
         List.length xs = (rows * cols)%nat ->
         List.length ys = (rows * cols)%nat ->
         laplacian_kernel (mkArray KMatrix [rows; cols] xs)
                          (mkArray KMatrix [rows; cols] ys) SIGMA
         = Ok (fexp (fdiv (fneg (norm1 (map2 fsub xs ys))) SIGMA))
         /\ gaussian_kernel (mkArray KMatrix [rows; cols] xs)
                            (mkArray KMatrix [rows; cols] ys) SIGMA
            = Ok (fexp (fdiv (fdiv (fneg (fpow (norm2 (map2 fsub xs ys)) (Fin 2)))
                                   (Fin 2))
                             (fpow SIGMA (Fin 2))))).
  { intros rows cols xs ys SIGMA Hx Hy.
    unfold laplacian_kernel, gaussian_kernel.
    rewrite (matrix_sub rows cols xs ys Hx Hy). split; reflexivity. }
  split; [exact Hraise |].
  split.
  { intros a b SIGMA r Hr.
    destruct (kind a) eqn:Ka; try (left; reflexivity);
      destruct (kind b) eqn:Kb; try (right; reflexivity); exfalso;
      (destruct (Hraise a b SIGMA) as [e [H1 [H2 _]]];
       [ rewrite Ka; discriminate | rewrite Kb; discriminate
       | destruct Hr as [Hr | Hr]; congruence ]). }
  split; [exact Hmat |].
  intros rows cols xs ys sigma Hx Hy Hs.
  destruct (Hmat rows cols (map Fin xs) (map Fin ys) (Fin sigma)) as [-> ->];
    try (rewrite length_map; assumption).
  rewrite (map2_fin fsub (fun x y => x + - y)) by reflexivity.
  unfold norm1, norm2. rewrite !map_map. cbn [fabs fmul].
  rewrite <- (map_map Rabs Fin), np_sum_fin, Rsum_abs_diff.
  rewrite <- (map_map (fun d => Rabs d * Rabs d) Fin), np_sum_fin, Rsum_sq_diff.
  pose proof (Rsum_map2_sq_nonneg xs ys) as Hnn.
  unfold fsqrt. rewrite Rltb_false by exact Hnn.
  rewrite !fpow_two. cbn [fneg]. rewrite !fdiv_fin by (try lra; nra).
  cbn [fexp]. split.
  - reflexivity.
  - unfold gaussian_formula, l2_distance. do 3 f_equal. field. exact Hs.
Qed.

Lemma kernels_need_matrix_witness :
  exists e,
    laplacian_kernel (mkArray KNdarray [2%nat] [Fin 1; Fin 2])
                     (mkArray KNdarray [2%nat] [Fin 0; Fin 0]) (Fin 1) = Err e
    /\ gaussian_kernel (mkArray KNdarray [2%nat] [Fin 1; Fin 2])
                       (mkArray KNdarray [2%nat] [Fin 0; Fin 0]) (Fin 1) = Err e
    /\ (e = TypeError \/ e = ValueError \/ e = AttributeError)
    /\ (e = TypeError <-> KNdarray = KList /\ KNdarray = KList)
    /\ (e = AttributeError <->
        (KNdarray = KNdarray \/ KNdarray = KNdarray)
        /\ broadcast_shape [2%nat] [2%nat] <> None).
Proof.
  apply (proj1 kernels_need_matrix
           (mkArray KNdarray [2%nat] [Fin 1; Fin 2])
           (mkArray KNdarray [2%nat] [Fin 0; Fin 0]) (Fin 1)); discriminate.
Defined.

(** ** The order of floats *)

Ltac float_cases :=
  unfold sort_le, fle, flt, feq, Rltb, Reqb in *;
  repeat match goal with
    | |- context [Rlt_dec ?a ?b] => destruct (Rlt_dec a b)
    | H : context [Rlt_dec ?a ?b] |- _ => destruct (Rlt_dec a b)
    | |- context [Req_dec_T ?a ?b] => destruct (Req_dec_T a b)
    | H : context [Req_dec_T ?a ?b] |- _ => destruct (Req_dec_T a b)
    end;
  simpl in *; try discriminate; try reflexivity; try (f_equal; lra); try lra.

Lemma pyfloat_eq_dec (x y : pyfloat) : {x = y} + {x <> y}.
Proof.
  destruct x as [a | | |], y as [b | | |];
    try (left; reflexivity); try (right; discriminate).
  destruct (Req_dec_T a b) as [-> | Hab]; [left; reflexivity |].
  right. intros H. inversion H. contradiction.
Qed.

Lemma feq_eq (x y : pyfloat) : feq x y = true -> x = y.
Proof. destruct x, y; intros H; float_cases. Qed.

Lemma feq_refl (x : pyfloat) : is_nan x = false -> feq x x = true.
Proof. destruct x; intros H; float_cases. Qed.

Lemma fle_refl (x : pyfloat) : is_nan x = false -> fle x x = true.
Proof. destruct x; intros H; float_cases. Qed.

Lemma flt_fle (x y : pyfloat) : flt x y = true -> fle x y = true.
Proof. intros H. unfold fle. rewrite H. reflexivity. Qed.

Lemma sort_le_total (x y : pyfloat) : sort_le x y = false -> sort_le y x = true.
Proof. destruct x, y; intros H; float_cases. Qed.

Lemma sort_le_trans (x y z : pyfloat) :
  sort_le x y = true -> sort_le y z = true -> sort_le x z = true.
Proof. destruct x, y, z; intros H1 H2; float_cases. Qed.

Lemma sort_le_strict (x y : pyfloat) :
  is_nan x = false -> is_nan y = false ->
  sort_le x y = true -> feq x y = false -> flt x y = true.
Proof. destruct x, y; intros Hx Hy H1 H2; float_cases. Qed.

Lemma flt_sort_le_trans (x y z : pyfloat) :
  is_nan z = false ->
  flt x y = true -> sort_le y z = true -> flt x z = true.
Proof. destruct x, y, z; intros Hz H1 H2; float_cases. Qed.

(** ** [numpy.sort] and [numpy.unique] *)

Lemma insert_sorted_In (x z : pyfloat) (l : list pyfloat) :
  In z (insert_sorted x l) <-> z = x \/ In z l.
Proof.
  induction l as [| y t IH]; simpl.
  - intuition.
  - destruct (sort_le x y); simpl; rewrite ?IH; intuition.
Qed.

Lemma np_sort_In (z : pyfloat) (l : list pyfloat) : In z (np_sort l) <-> In z l.
Proof.
  unfold np_sort. induction l as [| x t IH]; simpl; [reflexivity |].
  rewrite insert_sorted_In, IH. intuition.
Qed.

Lemma insert_sorted_sorted (x : pyfloat) (l : list pyfloat) :
  sorted_le l -> sorted_le (insert_sorted x l).
Proof.
  unfold sorted_le. induction 1 as [| y t Ht IH Hy]; simpl.
  - repeat constructor.
  - destruct (sort_le x y) eqn:E.
    + constructor; [constructor; assumption |].
      constructor; [exact E |].
      eapply Forall_impl; [| exact Hy]. intros a Ha.
      exact (sort_le_trans x y a E Ha).
    + constructor; [exact IH |].
      apply Forall_forall. intros a Ha. apply insert_sorted_In in Ha.
      destruct Ha as [-> | Ha].
      * apply sort_le_total. exact E.
      * rewrite Forall_forall in Hy. apply Hy. exact Ha.
Qed.

Lemma np_sort_sorted (l : list pyfloat) : sorted_le (np_sort l).
Proof.
  unfold np_sort. induction l as [| x t IH]; simpl.
  - constructor.
  - apply insert_sorted_sorted. exact IH.
Qed.

Lemma dedup_In (z : pyfloat) (l : list pyfloat) : In z (dedup l) <-> In z l.
Proof.
  induction l as [| x t IH]; [reflexivity |].
  cbn [dedup]. destruct t as [| y t'].
  - reflexivity.
  - destruct (feq x y) eqn:E.
    + rewrite IH. apply feq_eq in E. subst y. simpl. intuition.
    + change (In z (x :: dedup (y :: t')) <-> In z (x :: y :: t')).
      simpl. simpl in IH. rewrite IH. intuition.
Qed.

Lemma dedup_strict (l : list pyfloat) :
  nan_free l -> sorted_le l -> sorted_lt (dedup l).
Proof.
  unfold nan_free, sorted_le, sorted_lt.
  intros Hn Hs. induction Hs as [| x t Ht IH Hx]; [constructor |].
  inversion Hn as [| ? ? Hnx Hnt]; subst.
  cbn [dedup]. destruct t as [| y t'].
  - repeat constructor.
  - destruct (feq x y) eqn:E; [exact (IH Hnt) |].
    constructor; [exact (IH Hnt) |].
    apply Forall_forall. intros z Hz. apply (proj1 (dedup_In _ _)) in Hz.
    inversion Hx as [| ? ? Hxy _]; subst.
    inversion Hnt as [| ? ? Hny _]; subst.
    assert (Hlt : flt x y = true) by (apply sort_le_strict; assumption).
    simpl in Hz. destruct Hz as [<- | Hz]; [exact Hlt |].
    inversion Ht as [| ? ? _ Hy]; subst.
    rewrite Forall_forall in Hy, Hnt.
    apply (flt_sort_le_trans x y z); [apply Hnt; right; exact Hz | exact Hlt |].
    apply Hy. exact Hz.
Qed.

Lemma np_unique_In (z : pyfloat) (l : list pyfloat) : In z (np_unique l) <-> In z l.
Proof. unfold np_unique. rewrite dedup_In. apply np_sort_In. Qed.

Lemma np_unique_strict (l : list pyfloat) : nan_free l -> sorted_lt (np_unique l).
Proof.
  intros Hn. unfold np_unique. apply dedup_strict.
  - unfold nan_free in *. rewrite Forall_forall in *.
    intros x Hx. apply Hn. apply np_sort_In. exact Hx.
  - apply np_sort_sorted.
Qed.

(** ** [mode] without weights *)

Lemma score_count_pos (l : list pyfloat) (s : pyfloat) :
  In s l -> is_nan s = false -> (0 < score_count l s)%Z.
Proof.
  intros Hin Hs. unfold score_count, count_if.
  assert (H : In s (filter (fun v => feq v s) l)).
  { apply filter_In. split; [exact Hin | apply feq_refl; exact Hs]. }
  destruct (filter (fun v => feq v s) l); [contradiction | simpl; lia].
Qed.

Lemma score_count_zero (l : list pyfloat) (s : pyfloat) :
  ~ In s l -> score_count l s = 0%Z.
Proof.
  intros Hn. unfold score_count, count_if.
  destruct (filter (fun v => feq v s) l) as [| v t] eqn:E; [reflexivity |].
  exfalso. assert (H : In v (filter (fun v => feq v s) l)) by (rewrite E; left; reflexivity).
  apply filter_In in H. destruct H as [Hv Hf]. apply feq_eq in Hf. subst v.
  exact (Hn Hv).
Qed.

Lemma mode_fold (l : list pyfloat) :
  forall post pre st,
    sorted_lt post ->
    (forall p s, In p pre -> In s post -> flt p s = true) ->
    (forall s, In s post -> (0 < score_count l s)%Z /\ is_nan s = false) ->
    mode_inv l pre st ->
    mode_inv l (pre ++ post) (fold_left (mode_step l) post st).
Proof.
  induction post as [| s post IH]; intros pre st Hsorted Hsep Hpos Hinv.
  - rewrite app_nil_r. exact Hinv.
  - cbn [fold_left].
    replace (pre ++ s :: post)%list with ((pre ++ [s]) ++ post)%list
      by (rewrite <- app_assoc; reflexivity).
    inversion Hsorted as [| ? ? Hpost Hs]; subst.
    destruct (Hpos s (or_introl eq_refl)) as [Hcs Hns].
    apply IH.
    + exact Hpost.
    + intros p q Hp Hq. apply in_app_or in Hp. destruct Hp as [Hp | [<- | []]].
      * apply Hsep; [exact Hp | right; exact Hq].
      * rewrite Forall_forall in Hs. apply Hs. exact Hq.
    + intros q Hq. apply Hpos. right. exact Hq.
    + unfold mode_step. fold (score_count l s).
      destruct Hinv as [[-> H0] | [Hin [Hc [Hmax Htie]]]].
      * rewrite H0. rewrite (proj2 (Z.ltb_lt _ _) Hcs).
        right. cbn [fst snd app]. split; [left; reflexivity |].
        split; [reflexivity |].
        split; intros p [<- | []]; [lia | intros _; apply fle_refl; exact Hns].
      * destruct (Z.ltb (snd st) (score_count l s)) eqn:E.
        -- apply Z.ltb_lt in E. right. cbn [fst snd].
           split; [apply in_or_app; right; left; reflexivity |].
           split; [reflexivity |].
           split; intros p Hp; apply in_app_or in Hp; destruct Hp as [Hp | [<- | []]].
           ++ specialize (Hmax p Hp). lia.
           ++ lia.
           ++ specialize (Hmax p Hp). lia.
           ++ intros _. apply fle_refl. exact Hns.
        -- apply Z.ltb_ge in E. right.
           split; [apply in_or_app; left; exact Hin |].
           split; [exact Hc |].
           split; intros p Hp; apply in_app_or in Hp; destruct Hp as [Hp | [<- | []]].
           ++ exact (Hmax p Hp).
           ++ exact E.
           ++ exact (Htie p Hp).
           ++ intros _. apply flt_fle. apply Hsep; [exact Hin | left; reflexivity].
Qed.

(** The mode of a non-empty sample free of NaN: an element of the largest
    count, and below every other element of that count. *)
Lemma scipy_mode_spec (l : list pyfloat) :
  l <> [] -> nan_free l ->
  exists v,
    scipy_mode l = Ok v
    /\ In v l
    /\ (forall u, (score_count l u <= score_count l v)%Z)
    /\ (forall u, In u l -> score_count l u = score_count l v -> fle v u = true).
Proof.
  intros Hne Hnan.
  assert (Hnan' : forall x, In x l -> is_nan x = false)
    by (apply Forall_forall; exact Hnan).
  assert (Hinv : mode_inv l ([] ++ np_unique l)
                   (fold_left (mode_step l) (np_unique l) (Fin 0, 0%Z))).
  { apply mode_fold.
    - apply np_unique_strict. exact Hnan.
    - intros p s [].
    - intros s Hs. apply (proj1 (np_unique_In s l)) in Hs.
      split; [| apply Hnan'; exact Hs].
      apply score_count_pos; [exact Hs | apply Hnan'; exact Hs].
    - left. split; reflexivity. }
  cbn [app] in Hinv.
  destruct Hinv as [[Hnil _] | [Hin [Hc [Hmax Htie]]]].
  - exfalso. destruct l as [| x t]; [exact (Hne eq_refl) |].
    assert (Hx : In x (np_unique (x :: t)))
      by (apply (proj2 (np_unique_In x (x :: t))); left; reflexivity).
    rewrite Hnil in Hx. exact Hx.
  - pose proof (proj1 (np_unique_In _ l) Hin) as Hin'.
    exists (fst (fold_left (mode_step l) (np_unique l) (Fin 0, 0%Z))).
    split; [unfold scipy_mode; destruct l; [contradiction | reflexivity] |].
    split; [exact Hin' |].
    rewrite <- Hc. split.
    + intros u. destruct (in_dec pyfloat_eq_dec u l) as [Hu | Hu].
      * apply Hmax. apply (proj2 (np_unique_In u l)). exact Hu.
      * rewrite (score_count_zero l u Hu).
        pose proof (score_count_pos l _ Hin' (Hnan' _ Hin')) as Hp. lia.
    + intros u Hu. apply Htie. apply (proj2 (np_unique_In u l)). exact Hu.
Qed.

Lemma score_count_fin (xs : list R) (u : R) :
  score_count (map Fin xs) (Fin u) = Z.of_nat (occurrences u xs).
Proof.
  unfold score_count, count_if, occurrences. f_equal.
  induction xs as [| x t IH]; [reflexivity |].
  cbn [map filter count_occ feq]. unfold Reqb.
  destruct (Req_dec_T x u); simpl; rewrite IH; reflexivity.
Qed.

Lemma nan_free_fin (xs : list R) : nan_free (map Fin xs).
Proof. unfold nan_free. induction xs; constructor; [reflexivity | assumption]. Qed.

Lemma In_fin (xs : list R) (v : pyfloat) :
  In v (map Fin xs) -> exists r, v = Fin r /\ In r xs.
Proof.
  intros H. apply in_map_iff in H. destruct H as [r [<- Hr]]. exists r. auto.
Qed.

Lemma fle_fin (a b : R) : fle (Fin a) (Fin b) = true <-> a <= b.
Proof.
  unfold fle, flt, feq, Rltb, Reqb.
  destruct (Rlt_dec a b), (Req_dec_T a b); simpl; split; intros; try reflexivity;
    try lra; discriminate.
Qed.

Lemma mode_unweighted_fin (xs : list R) :
  xs <> [] ->
  exists v,
    mode (map Fin xs) None = Ok (Fin v)
    /\ In v xs
    /\ (forall u, (occurrences u xs <= occurrences v xs)%nat)
    /\ (forall u, In u xs -> occurrences u xs = occurrences v xs -> v <= u).
Proof.
  intros Hne.
  destruct (scipy_mode_spec (map Fin xs)) as [v [Hm [Hin [Hmax Htie]]]].
  - destruct xs; [contradiction | discriminate].
  - apply nan_free_fin.
  - destruct (In_fin xs v Hin) as [r [-> Hr]]. exists r.
    split; [exact Hm |]. split; [exact Hr |]. split.
    + intros u. specialize (Hmax (Fin u)). rewrite !score_count_fin in Hmax. lia.
    + intros u Hu He. apply fle_fin. apply Htie.
      * apply in_map. exact Hu.
      * rewrite !score_count_fin. f_equal. exact He.
Qed.

(** ** [mode] with weights *)

Lemma max_from_fin (l : list R) :
  forall c, exists m,
    max_from (Fin c) (map Fin l) = Fin m
    /\ (m = c \/ In m l) /\ c <= m /\ (forall x, In x l -> x <= m).
Proof.
  induction l as [| x t IH]; intros c.
  - exists c. simpl. intuition lra.
  - cbn [map max_from flt]. unfold Rltb. destruct (Rlt_dec c x) as [Hlt | Hge].
    + destruct (IH x) as [m [Hm [Hin [Hle Hall]]]]. exists m.
      split; [exact Hm |]. split; [right; simpl; intuition |].
      split; [lra |]. intros y [<- | Hy]; [exact Hle | exact (Hall y Hy)].
    + destruct (IH c) as [m [Hm [Hin [Hle Hall]]]]. exists m.
      split; [exact Hm |]. split; [simpl; intuition |].
      split; [exact Hle |]. intros y [<- | Hy]; [lra | exact (Hall y Hy)].
Qed.

Lemma min_from_fin (l : list R) :
  forall c, exists m,
    min_from (Fin c) (map Fin l) = Fin m
    /\ (m = c \/ In m l) /\ m <= c /\ (forall x, In x l -> m <= x).
Proof.
  induction l as [| x t IH]; intros c.
  - exists c. simpl. intuition lra.
  - cbn [map min_from flt]. unfold Rltb. destruct (Rlt_dec x c) as [Hlt | Hge].
    + destruct (IH x) as [m [Hm [Hin [Hle Hall]]]]. exists m.
      split; [exact Hm |]. split; [right; simpl; intuition |].
      split; [lra |]. intros y [<- | Hy]; [exact Hle | exact (Hall y Hy)].
    + destruct (IH c) as [m [Hm [Hin [Hle Hall]]]]. exists m.
      split; [exact Hm |]. split; [simpl; intuition |].
      split; [exact Hle |]. intros y [<- | Hy]; [lra | exact (Hall y Hy)].
Qed.

Lemma no_nan_fin (l : list R) : existsb is_nan (map Fin l) = false.
Proof. induction l as [| x t IH]; [reflexivity | exact IH]. Qed.

Lemma np_max_fin (l : list R) :
  l <> [] ->
  exists m, np_max (map Fin l) = Ok (Fin m) /\ In m l /\ (forall x, In x l -> x <= m).
Proof.
  intros Hne. destruct l as [| c t]; [contradiction |].
  destruct (max_from_fin t c) as [m [Hm [Hin [Hle Hall]]]]. exists m.
  split.
  - unfold np_max. rewrite no_nan_fin. cbn [map]. rewrite Hm. reflexivity.
  - split; [simpl; intuition |]. intros y [<- | Hy]; [exact Hle | exact (Hall y Hy)].
Qed.

Lemma np_min_fin (l : list R) :
  l <> [] ->
  exists m, np_min (map Fin l) = Ok (Fin m) /\ In m l /\ (forall x, In x l -> m <= x).
Proof.
  intros Hne. destruct l as [| c t]; [contradiction |].
  destruct (min_from_fin t c) as [m [Hm [Hin [Hle Hall]]]]. exists m.
  split.
  - unfold np_min. rewrite no_nan_fin. cbn [map]. rewrite Hm. reflexivity.
  - split; [simpl; intuition |]. intros y [<- | Hy]; [exact Hle | exact (Hall y Hy)].
Qed.

Lemma closeb_spec (wmax w : R) : closeb wmax w = true <-> within_tolerance wmax w.
Proof.
  unfold closeb, within_tolerance, Rltb.
  destruct (Rlt_dec (atol + rtol * Rabs wmax) (Rabs (w - wmax))); simpl;
    split; intros; try reflexivity; try discriminate; lra.
Qed.

Lemma closeb_refl (wmax : R) : closeb wmax wmax = true.
Proof.
  apply closeb_spec. unfold within_tolerance, atol, rtol.
  replace (wmax - wmax) with 0 by lra. rewrite Rabs_R0.
  pose proof (Rabs_pos wmax). nra.
Qed.

Lemma select_fin (wmax : R) (xs ws : list R) :
  List.length xs = List.length ws ->
  select (map Fin xs) (map (fun w => isclose w (Fin wmax)) (map Fin ws)) =
  map Fin (chosen wmax xs ws).
Proof.
  unfold chosen. revert ws.
  induction xs as [| x t IH]; intros [| w ws] H; try discriminate; [reflexivity |].
  cbn [map select combine filter snd isclose]. fold (closeb wmax w).
  rewrite IH by (simpl in H; lia).
  destruct (closeb wmax w); reflexivity.
Qed.

Lemma chosen_In (wmax : R) (xs ws : list R) (x : R) :
  In x (chosen wmax xs ws) <->
  exists w, In (x, w) (combine xs ws) /\ within_tolerance wmax w.
Proof.
  unfold chosen. rewrite in_map_iff. split.
  - intros [[x' w] [Hx Hp]]. simpl in Hx. subst x'. apply filter_In in Hp.
    destruct Hp as [Hin Hc]. exists w. split; [exact Hin |].
    apply closeb_spec. exact Hc.
  - intros [w [Hin Hc]]. exists (x, w). split; [reflexivity |].
    apply filter_In. split; [exact Hin | apply closeb_spec; exact Hc].
Qed.

Lemma combine_has_weight (xs ws : list R) (w : R) :
  List.length xs = List.length ws -> In w ws -> exists x, In (x, w) (combine xs ws).
Proof.
  revert ws. induction xs as [| x t IH]; intros [| w' ws] H Hin;
    try discriminate; [contradiction |].
  destruct Hin as [-> | Hin].
  - exists x. left. reflexivity.
  - destruct (IH ws) as [x' Hx']; [simpl in H; lia | exact Hin |].
    exists x'. right. exact Hx'.
Qed.

Lemma mode_weighted_fin (xs ws : list R) :
  ws <> [] -> List.length xs = List.length ws ->
  exists wmax r,
    In wmax ws /\ (forall w, In w ws -> w <= wmax)
    /\ mode (map Fin xs) (Some (map Fin ws)) = Ok (Fin r)
    /\ (exists w, In (r, w) (combine xs ws) /\ within_tolerance wmax w)
    /\ (forall x w, In (x, w) (combine xs ws) -> within_tolerance wmax w -> r <= x).
Proof.
  intros Hne Hlen.
  destruct (np_max_fin ws Hne) as [wmax [Hmax [Hin Hall]]].
  assert (Hc : chosen wmax xs ws <> []).
  { destruct (combine_has_weight xs ws wmax Hlen Hin) as [x Hx].
    assert (H : In x (chosen wmax xs ws)).
    { apply chosen_In. exists wmax. split; [exact Hx |].
      apply closeb_spec. apply closeb_refl. }
    intros E. rewrite E in H. exact H. }
  destruct (np_min_fin (chosen wmax xs ws) Hc) as [r [Hmin [Hr Hleast]]].
  exists wmax, r. split; [exact Hin |]. split; [exact Hall |].
  split.
  - unfold mode. rewrite Hmax. cbn [bind]. unfold bool_index.
    rewrite !length_map, Hlen, Nat.eqb_refl.
    rewrite (select_fin wmax xs ws Hlen). cbn [bind]. exact Hmin.
  - split; [apply chosen_In; exact Hr |].
    intros x w Hx Hw. apply Hleast. apply chosen_In. exists w. auto.
Qed.

(** C5.  Without weights [mode] returns a value of the largest number of
    occurrences, the smallest of them on a tie, as in [mode([1,1,2,3]) == 1].
    With weights it takes the largest weight, keeps every position whose
    weight is within [1e-08 + 1e-05 * |largest|] of it, and returns the least
    value at those positions: 2 on [[1,2,2,3]] under [[1,5,5,1]], and 1 on
    [[3, 1]] under [[1.000001, 1]], where the two weights differ within the
    tolerance. *)
Theorem mode_most_frequent_smallest :
  (forall xs,
      xs <> [] ->
      exists v,
        mode (map Fin xs) None = Ok (Fin v)
        /\ In v xs
        /\ (forall u, (occurrences u xs <= occurrences v xs)%nat)
        /\ (forall u, In u xs -> occurrences u xs = occurrences v xs -> v <= u))
  /\ mode [Fin 1; Fin 1; Fin 2; Fin 3] None = Ok (Fin 1)
  /\ (forall xs ws,
         ws <> [] -> List.length xs = List.length ws ->
         exists wmax r,
           In wmax ws /\ (forall w, In w ws -> w <= wmax)
           /\ mode (map Fin xs) (Some (map Fin ws)) = Ok (Fin r)
           /\ (exists w, In (r, w) (combine xs ws) /\ within_tolerance wmax w)
           /\ (forall x w,
                  In (x, w) (combine xs ws) -> within_tolerance wmax w -> r <= x))
  /\ mode [Fin 1; Fin 2; Fin 2; Fin 3] (Some [Fin 1; Fin 5; Fin 5; Fin 1]) = Ok (Fin 2)
  /\ mode [Fin 3; Fin 1] (Some [Fin (1000001 / 1000000); Fin 1]) = Ok (Fin 1).
Proof.
  split; [exact mode_unweighted_fin |].
  split.
  { unfold mode, scipy_mode, np_unique, np_sort, mode_step, count_if. run.
    reflexivity. }
  split; [exact mode_weighted_fin |].
  split.
  - unfold mode, np_max, np_min, bool_index, isclose, atol, rtol. run. reflexivity.
  - unfold mode, np_max, np_min, bool_index, isclose, atol, rtol. run. reflexivity.
Qed.

Lemma mode_most_frequent_smallest_witness :
  exists v,
    mode (map Fin [1; 1; 2; 3]) None = Ok (Fin v)
    /\ In v [1; 1; 2; 3]
    /\ (forall u, le (occurrences u [1; 1; 2; 3]) (occurrences v [1; 1; 2; 3]))
    /\ (forall u, In u [1; 1; 2; 3] ->
                  occurrences u [1; 1; 2; 3] = occurrences v [1; 1; 2; 3] -> v <= u).
Proof.
  apply (proj1 mode_most_frequent_smallest). discriminate.
Defined.

(** ** Sorted lists *)

Lemma StronglySorted_app_cross {A : Type} (R : A -> A -> Prop) (a b : list A) :
  StronglySorted R (a ++ b) -> forall x y, In x a -> In y b -> R x y.
Proof.
  induction a as [| h t IH]; intros Hs x y Hx Hy; [contradiction |].
  simpl in Hs. inversion Hs as [| ? ? Ht Hh]; subst.
  destruct Hx as [<- | Hx].
  - rewrite Forall_forall in Hh. apply Hh. apply in_or_app. right. exact Hy.
  - exact (IH Ht x y Hx Hy).
Qed.

Lemma StronglySorted_app_r {A : Type} (R : A -> A -> Prop) (a b : list A) :
  StronglySorted R (a ++ b) -> StronglySorted R b.
Proof.
  induction a as [| h t IH]; intros Hs; [exact Hs |].
  simpl in Hs. inversion Hs; subst. apply IH. assumption.
Qed.

Lemma StronglySorted_snoc {A : Type} (R : A -> A -> Prop) (l : list A) (x : A) :
  StronglySorted R l -> Forall (fun y => R y x) l -> StronglySorted R (l ++ [x]).
Proof.
  induction 1 as [| h t Ht IH Hh]; intros Hx; simpl.
  - repeat constructor.
  - inversion Hx as [| ? ? Hhx Htx]; subst. constructor; [exact (IH Htx) |].
    apply Forall_app. split; [exact Hh | repeat constructor; exact Hhx].
Qed.

Lemma StronglySorted_rev {A : Type} (R : A -> A -> Prop) (l : list A) :
  StronglySorted R l -> StronglySorted (fun x y => R y x) (rev l).
Proof.
  induction 1 as [| h t Ht IH Hh]; simpl; [constructor |].
  apply StronglySorted_snoc; [exact IH |].
  apply Forall_rev. exact Hh.
Qed.

Lemma StronglySorted_map {A B : Type} (R : A -> A -> Prop) (S : B -> B -> Prop)
  (f : A -> B) (P : A -> Prop) (l : list A) :
  (forall p q, P p -> P q -> R p q -> S (f p) (f q)) ->
  Forall P l -> StronglySorted R l -> StronglySorted S (map f l).
Proof.
  intros H HP Hs. induction Hs as [| h t Ht IH Hh]; simpl; [constructor |].
  inversion HP as [| ? ? Hph Hpt]; subst. constructor; [exact (IH Hpt) |].
  rewrite Forall_forall in *. intros y Hy. apply in_map_iff in Hy.
  destruct Hy as [q [<- Hq]]. apply H; auto.
Qed.

(** ** [numpy.argsort] *)

Lemma insert_by_perm (p : Z * nat) (l : list (Z * nat)) :
  Permutation (p :: l) (insert_by p l).
Proof.
  induction l as [| q t IH]; simpl; [reflexivity |].
  destruct (fst p <=? fst q)%Z; [reflexivity |].
  rewrite perm_swap. constructor. exact IH.
Qed.

Lemma insert_by_sorted (p : Z * nat) (l : list (Z * nat)) :
  StronglySorted by_count l -> StronglySorted by_count (insert_by p l).
Proof.
  induction 1 as [| q t Ht IH Hq]; simpl; [repeat constructor |].
  destruct (fst p <=? fst q)%Z eqn:E.
  - apply Z.leb_le in E. constructor; [constructor; assumption |].
    constructor; [exact E |].
    eapply Forall_impl; [| exact Hq]. unfold by_count. intros a Ha. lia.
  - apply Z.leb_gt in E. constructor; [exact IH |].
    rewrite Forall_forall in *. intros a Ha.
    apply (Permutation_in _ (Permutation_sym (insert_by_perm p t))) in Ha.
    destruct Ha as [<- | Ha]; [unfold by_count; lia | exact (Hq a Ha)].
Qed.

Lemma sort_pairs_perm (l : list (Z * nat)) :
  Permutation l (fold_right insert_by [] l).
Proof.
  induction l as [| p t IH]; simpl; [reflexivity |].
  rewrite <- insert_by_perm. constructor. exact IH.
Qed.

Lemma sort_pairs_sorted (l : list (Z * nat)) :
  StronglySorted by_count (fold_right insert_by [] l).
Proof.
  induction l as [| p t IH]; simpl; [constructor |].
  apply insert_by_sorted. exact IH.
Qed.

Lemma combine_seq_nth (hist : list Z) :
  forall k c i,
    In (c, i) (combine hist (seq k (List.length hist))) ->
    (k <= i < k + List.length hist)%nat /\ nth (i - k) hist 0%Z = c.
Proof.
  induction hist as [| h t IH]; intros k c i H; [contradiction |].
  simpl in H. destruct H as [H | H].
  - inversion H; subst. rewrite Nat.sub_diag. simpl. split; [lia | reflexivity].
  - destruct (IH (S k) c i H) as [Hr Hn]. split; [simpl; lia |].
    replace (i - k)%nat with (S (i - S k)) by lia. exact Hn.
Qed.

Lemma map_snd_combine_seq (hist : list Z) :
  forall k, map snd (combine hist (seq k (List.length hist))) = seq k (List.length hist).
Proof.
  induction hist as [| h t IH]; intros k; [reflexivity |].
  simpl. rewrite IH. reflexivity.
Qed.

Lemma np_argsort_perm (hist : list Z) :
  Permutation (seq 0 (List.length hist)) (np_argsort hist).
Proof.
  unfold np_argsort. rewrite <- (map_snd_combine_seq hist 0) at 1.
  apply Permutation_map. apply sort_pairs_perm.
Qed.

Lemma np_argsort_sorted (hist : list Z) :
  StronglySorted (fun i j => (nth i hist 0 <= nth j hist 0)%Z) (np_argsort hist).
Proof.
  unfold np_argsort.
  apply (StronglySorted_map by_count _ snd
           (fun p => nth (snd p) hist 0%Z = fst p)).
  - intros p q Hp Hq H. unfold by_count in H. rewrite Hp, Hq. exact H.
  - apply Forall_forall. intros [c i] Hp.
    apply (Permutation_in _ (Permutation_sym (sort_pairs_perm _))) in Hp.
    destruct (combine_seq_nth hist 0 c i Hp) as [_ Hn].
    rewrite Nat.sub_0_r in Hn. exact Hn.
  - apply sort_pairs_sorted.
Qed.

Lemma np_argsort_In (hist : list Z) (i : nat) :
  In i (np_argsort hist) <-> (i < List.length hist)%nat.
Proof.
  split; intros H.
  - apply (Permutation_in _ (Permutation_sym (np_argsort_perm hist))) in H.
    apply in_seq in H. lia.
  - apply (Permutation_in _ (np_argsort_perm hist)). apply in_seq. lia.
Qed.

Lemma np_argsort_length (hist : list Z) :
  List.length (np_argsort hist) = List.length hist.
Proof.
  rewrite <- (Permutation_length (np_argsort_perm hist)). apply length_seq.
Qed.

(** ** Slices, lookups and the histogram *)

Lemma last_n_skipn {A : Type} (n : Z) (l : list A) :
  (1 <= n)%Z -> last_n n l = skipn (List.length l - Z.to_nat n) l.
Proof.
  intros H. unfold last_n. rewrite (proj2 (Z.ltb_lt 0 n)) by lia.
  f_equal. lia.
Qed.

Lemma take_at_ok (bins : list pyfloat) (idx : list nat) :
  (forall i, In i idx -> (i < List.length bins)%nat) ->
  take_at bins idx = Ok (map (fun i => nth i bins NaN) idx).
Proof.
  induction idx as [| i t IH]; intros H; [reflexivity |].
  cbn [take_at map].
  destruct (nth_error bins i) as [b |] eqn:E.
  - rewrite IH by (intros j Hj; apply H; right; exact Hj). cbn [bind].
    rewrite (nth_error_nth _ _ NaN E). reflexivity.
  - apply nth_error_None in E. specialize (H i (or_introl eq_refl)). lia.
Qed.

Lemma hist_counts_length (a edges : list pyfloat) :
  List.length (hist_counts a edges) = (List.length edges - 1)%nat.
Proof.
  induction edges as [| lo tl IH]; [reflexivity |].
  cbn [hist_counts]. destruct tl as [| hi rest]; [reflexivity |].
  cbn [List.length] in *. rewrite IH. lia.
Qed.

Lemma np_histogram_ok (a edges : list pyfloat) (hist : list Z) (bins : list pyfloat) :
  np_histogram a edges = Ok (hist, bins) ->
  bins = edges /\ List.length bins = S (List.length hist)
  /\ hist = hist_counts a edges.
Proof.
  unfold np_histogram. destruct edges as [| e t]; [discriminate |].
  destruct (increasing (e :: t)); [| discriminate].
  intros H. pose proof (hist_counts_length a (e :: t)) as HL.
  assert (Hh : hist = hist_counts a (e :: t)) by (inversion H; reflexivity).
  assert (Hb : bins = e :: t) by (inversion H; reflexivity).
  split; [exact Hb |]. split; [| exact Hh].
  rewrite Hb, Hh, HL. simpl. lia.
Qed.

Lemma nans_length (k : Z) : List.length (nans k) = Z.to_nat k.
Proof. unfold nans. apply repeat_length. Qed.

(** ** [n_numerical_modes] *)

Lemma Rceil_IZR (z : Z) (r : R) : r = IZR z -> Rceil r = z.
Proof.
  intros ->. unfold Rceil. rewrite Ris_int_IZR. apply Int_part_IZR.
Qed.

Lemma In_skipn {A : Type} (k : nat) (l : list A) (x : A) :
  In x (skipn k l) -> In x l.
Proof.
  intros H. rewrite <- (firstn_skipn k l). apply in_or_app. right. exact H.
Qed.

(** A sample of one repeated finite value is a set of one element. *)
Lemma py_set_constant (v : R) (k : nat) :
  List.length (py_set (repeat (Fin v) (S k))) = 1%nat.
Proof.
  induction k as [| k IH]; [reflexivity |].
  change (repeat (Fin v) (S (S k))) with (Fin v :: repeat (Fin v) (S k)).
  cbn [py_set].
  assert (H : py_in (Fin v) (repeat (Fin v) (S k)) = true).
  { unfold py_in. simpl. rewrite Reqb_refl. reflexivity. }
  rewrite H. exact IH.
Qed.

Lemma n_numerical_modes_degenerate (first : pyfloat) (rest : list pyfloat)
  (n : Z) (dl : value) :
  List.length (py_set (first :: rest)) = 1%nat ->
  n_numerical_modes (first :: rest) (VInt n) dl = Ok (first :: nans (n - 1)).
Proof.
  intros H. unfold n_numerical_modes. rewrite H. reflexivity.
Qed.

Lemma n_numerical_modes_histogram (data_lst : list pyfloat) (n : Z)
  (dl lo hi : pyfloat) (edges bins : list pyfloat) (hist : list Z) :
  List.length (py_set data_lst) <> 1%nat ->
  py_min data_lst = Ok lo ->
  py_max data_lst = Ok hi ->
  np_arange lo hi dl = Ok edges ->
  np_histogram data_lst edges = Ok (hist, bins) ->
  (1 <= n)%Z ->
  exists idx,
    n_numerical_modes data_lst (VInt n) (VFloat dl) =
    Ok (map (fun i => nth i bins NaN) idx ++ nans (n - Z.of_nat (List.length idx)))%list
    /\ List.length idx = Nat.min (Z.to_nat n) (List.length hist)
    /\ NoDup idx
    /\ (forall i, In i idx -> (i < List.length hist)%nat)
    /\ StronglySorted (fun i j => (nth j hist 0 <= nth i hist 0)%Z) idx
    /\ (forall i j,
           In i idx -> (j < List.length hist)%nat -> ~ In j idx ->
           (nth j hist 0 <= nth i hist 0)%Z).
Proof.
  intros Hdeg Hmin Hmax Har Hh Hn.
  exists (rev (last_n n (np_argsort hist))).
  destruct (np_histogram_ok _ _ _ _ Hh) as [Hb [Hlen _]].
  rewrite (last_n_skipn n _ Hn), np_argsort_length.
  set (k := (List.length hist - Z.to_nat n)%nat).
  pose proof (np_argsort_sorted hist) as Hsorted.
  pose proof (np_argsort_perm hist) as Hperm.
  rewrite <- (firstn_skipn k (np_argsort hist)) in Hsorted.
  assert (Hin : forall i, In i (rev (skipn k (np_argsort hist))) ->
                          (i < List.length hist)%nat).
  { intros i Hi. apply in_rev in Hi. apply In_skipn in Hi.
    apply np_argsort_In. exact Hi. }
  split.
  { unfold n_numerical_modes.
    rewrite (proj2 (Nat.eqb_neq _ _) Hdeg), Hmin, Hmax. cbn [bind as_number].
    rewrite Har. cbn [bind]. rewrite Hh. cbn [bind as_int fst snd].
    rewrite (last_n_skipn n _ Hn), np_argsort_length. fold k.
    rewrite take_at_ok by (intros i Hi; specialize (Hin i Hi); lia).
    cbn [bind]. rewrite length_map. reflexivity. }
  split.
  { rewrite length_rev, length_skipn, np_argsort_length. unfold k. lia. }
  split.
  { apply NoDup_rev.
    assert (Hnd : NoDup (np_argsort hist))
      by (apply (Permutation_NoDup Hperm); apply seq_NoDup).
    rewrite <- (firstn_skipn k (np_argsort hist)) in Hnd.
    exact (NoDup_app_remove_l _ _ Hnd). }
  split; [exact Hin |].
  split.
  { apply (StronglySorted_rev (fun i j => (nth i hist 0 <= nth j hist 0)%Z)).
    exact (StronglySorted_app_r _ _ _ Hsorted). }
  intros i j Hi Hj Hnot.
  apply in_rev in Hi.
  assert (Hj' : In j (np_argsort hist)) by (apply np_argsort_In; exact Hj).
  rewrite <- (firstn_skipn k (np_argsort hist)) in Hj'.
  apply in_app_or in Hj'. destruct Hj' as [Hj' | Hj'].
  - exact (StronglySorted_app_cross _ _ _ Hsorted j i Hj' Hi).
  - exfalso. apply Hnot. apply (proj1 (in_rev _ _)). exact Hj'.
Qed.

Ltac same_floats :=
  repeat match goal with
    | |- Ok _ = Ok _ => f_equal
    | |- _ :: _ = _ :: _ => f_equal
    | |- Fin _ = Fin _ => f_equal; lra
    | |- _ = _ => reflexivity
    end.

Lemma arange_0_to_3_halves :
  np_arange (Fin 0) (Fin (3 / 2)) (Fin (1 / 2)) = Ok [Fin 0; Fin (1 / 2); Fin 1].
Proof.
  unfold np_arange, py_truediv. run.
  rewrite (Rceil_IZR 3) by lra. change (Z.to_nat 3) with 3%nat. simpl.
  same_floats.
Qed.

Lemma histogram_0_0_3_halves :
  np_histogram [Fin 0; Fin 0; Fin (3 / 2)] [Fin 0; Fin (1 / 2); Fin 1]
  = Ok ([2%Z; 0%Z], [Fin 0; Fin (1 / 2); Fin 1]).
Proof.
  unfold np_histogram, hist_counts, count_if, in_bin, fle. run. reflexivity.
Qed.

(** C7, as the code has it.  On a sample of one repeated value and [n >= 1],
    [n_numerical_modes] returns that value followed by [n - 1] NaN, as in
    [[5, NaN, NaN]] for [[5,5,5,5]] and [n = 3].  Otherwise, with the
    histogram [hist] over the edges [arange(min, max, dl)], it returns the
    left edges of the [min(n, len(hist))] bins of the largest counts, from
    the largest count down, and then [n - len(hist)] NaN when the histogram
    has fewer than [n] bins; the result has [n] entries.  An empty bin is a
    bin: its left edge is returned and no NaN stands for it. *)
Theorem n_numerical_modes_top_bins :
  (forall v k n dl,
      (1 <= n)%Z ->
      n_numerical_modes (repeat (Fin v) (S k)) (VInt n) dl = Ok (Fin v :: nans (n - 1))
      /\ Z.of_nat (List.length (Fin v :: nans (n - 1))) = n)
  /\ n_numerical_modes [Fin 5; Fin 5; Fin 5; Fin 5] (VInt 3) (VFloat (Fin (1 / 10)))
     = Ok [Fin 5; NaN; NaN]
  /\ (forall data_lst n dl lo hi edges bins hist,
         List.length (py_set data_lst) <> 1%nat ->
         py_min data_lst = Ok lo ->
         py_max data_lst = Ok hi ->
         np_arange lo hi dl = Ok edges ->
         np_histogram data_lst edges = Ok (hist, bins) ->
         (1 <= n)%Z ->
         exists idx,
           n_numerical_modes data_lst (VInt n) (VFloat dl) =
           Ok (map (fun i => nth i bins NaN) idx
               ++ nans (n - Z.of_nat (List.length hist)))%list
           /\ bins = edges
           /\ List.length idx = Nat.min (Z.to_nat n) (List.length hist)
           /\ NoDup idx
           /\ (forall i, In i idx -> (i < List.length hist)%nat)
           /\ StronglySorted (fun i j => (nth j hist 0 <= nth i hist 0)%Z) idx
           /\ (forall i j,
                  In i idx -> (j < List.length hist)%nat -> ~ In j idx ->
                  (nth j hist 0 <= nth i hist 0)%Z)
           /\ Z.of_nat (List.length (map (fun i => nth i bins NaN) idx
                                     ++ nans (n - Z.of_nat (List.length hist)))%list)
              = n).
Proof.
  split.
  { intros v k n dl Hn.
    change (repeat (Fin v) (S k)) with (Fin v :: repeat (Fin v) k).
    rewrite n_numerical_modes_degenerate by (apply (py_set_constant v k)).
    split; [reflexivity |]. cbn [List.length]. rewrite nans_length. lia. }
  split.
  { change [Fin 5; Fin 5; Fin 5; Fin 5] with (Fin 5 :: repeat (Fin 5) 3).
    rewrite n_numerical_modes_degenerate by (apply (py_set_constant 5 3)).
    reflexivity. }
  intros d n dl lo hi edges bins hist Hdeg Hmin Hmax Har Hh Hn.
  destruct (n_numerical_modes_histogram d n dl lo hi edges bins hist
              Hdeg Hmin Hmax Har Hh Hn)
    as [idx [Hres [Hlen [Hnd [Hin [Hsorted Htop]]]]]].
  destruct (np_histogram_ok _ _ _ _ Hh) as [Hb _].
  assert (Hpad : nans (n - Z.of_nat (List.length idx))
                 = nans (n - Z.of_nat (List.length hist))).
  { unfold nans. f_equal. rewrite Hlen. lia. }
  exists idx. rewrite <- Hpad.
  split; [exact Hres |]. split; [exact Hb |].
  split; [exact Hlen |]. split; [exact Hnd |]. split; [exact Hin |].
  split; [exact Hsorted |]. split; [exact Htop |].
  rewrite length_app, length_map, nans_length, Hlen. lia.
Qed.

Lemma n_numerical_modes_top_bins_witness :
  n_numerical_modes (repeat (Fin 5) 4) (VInt 3) (VFloat (Fin (1 / 10)))
  = Ok (Fin 5 :: nans (3 - 1))
  /\ Z.of_nat (List.length (Fin 5 :: nans (3 - 1))) = 3%Z.
Proof.
  apply (proj1 n_numerical_modes_top_bins 5 3%nat 3%Z). lia.
Defined.

(** C7, as the claim has it, fails on the sample [[0, 0, 1.5]] with [n = 2]
    and bins of width 0.5: the histogram has the two bins [[0, 0.5)] and
    [[0.5, 1]] with the counts 2 and 0, so one bin only is not empty, and the
    result is [[0, 0.5]], with no NaN in it. *)
Lemma n_numerical_modes_returns_empty_bin :
  np_histogram [Fin 0; Fin 0; Fin (3 / 2)] [Fin 0; Fin (1 / 2); Fin 1]
  = Ok ([2%Z; 0%Z], [Fin 0; Fin (1 / 2); Fin 1])
  /\ n_numerical_modes [Fin 0; Fin 0; Fin (3 / 2)] (VInt 2) (VFloat (Fin (1 / 2)))
     = Ok [Fin 0; Fin (1 / 2)]
  /\ n_numerical_modes [Fin 0; Fin 0; Fin (3 / 2)] (VInt 2) (VFloat (Fin (1 / 2)))
     <> Ok [Fin 0; NaN].
Proof.
  assert (H : n_numerical_modes [Fin 0; Fin 0; Fin (3 / 2)] (VInt 2)
                                (VFloat (Fin (1 / 2)))
              = Ok [Fin 0; Fin (1 / 2)]).
  { unfold n_numerical_modes, py_in. run.
    rewrite arange_0_to_3_halves. cbn [bind].
    rewrite histogram_0_0_3_halves. reflexivity. }
  split; [exact histogram_0_0_3_halves |].
  split; [exact H |]. rewrite H. discriminate.
Qed.

(** * Further properties of the class *)

(** ** The order statistics on samples *)

Lemma minimum_fin (xs : list R) (weights : option (list pyfloat)) :
  xs <> [] ->
  exists m, minimum (map Fin xs) weights = Ok (Fin m)
            /\ In m xs /\ (forall x, In x xs -> m <= x).
Proof.
  intros Hne. destruct xs as [| c t]; [contradiction |].
  destruct (min_from_fin t c) as [m [Hm [Hin [Hle Hall]]]]. exists m.
  split.
  - unfold minimum. rewrite nan_in_never. cbn [negb map py_min]. rewrite Hm.
    reflexivity.
  - split; [simpl; intuition |]. intros y [<- | Hy]; [exact Hle | exact (Hall y Hy)].
Qed.

Lemma maximum_fin (xs : list R) (weights : option (list pyfloat)) :
  xs <> [] ->
  exists m, maximum (map Fin xs) weights = Ok (Fin m)
            /\ In m xs /\ (forall x, In x xs -> x <= m).
Proof.
  intros Hne. destruct xs as [| c t]; [contradiction |].
  destruct (max_from_fin t c) as [m [Hm [Hin [Hle Hall]]]]. exists m.
  split.
  - unfold maximum. rewrite nan_in_never. cbn [negb map py_max]. rewrite Hm.
    reflexivity.
  - split; [simpl; intuition |]. intros y [<- | Hy]; [exact Hle | exact (Hall y Hy)].
Qed.

(** X1.  On a non-empty sample of finite numbers [minimum] returns an
    element of the sample that no element is below, and [maximum] one that
    no element is above, whatever the weights. *)
Theorem minimum_maximum_are_extremes (xs : list R) (weights : option (list pyfloat)) :
  xs <> [] ->
  exists lo hi,
    minimum (map Fin xs) weights = Ok (Fin lo)
    /\ maximum (map Fin xs) weights = Ok (Fin hi)
    /\ In lo xs /\ In hi xs
    /\ (forall x, In x xs -> lo <= x <= hi).
Proof.
  intros Hne.
  destruct (minimum_fin xs weights Hne) as [lo [Hlo [Hlin Hlall]]].
  destruct (maximum_fin xs weights Hne) as [hi [Hhi [Hhin Hhall]]].
  exists lo, hi. repeat (split; [assumption |]).
  intros x Hx. split; [exact (Hlall x Hx) | exact (Hhall x Hx)].
Qed.

Lemma minimum_maximum_are_extremes_witness :
  exists lo hi,
    minimum (map Fin [3; 1; 2]) None = Ok (Fin lo)
    /\ maximum (map Fin [3; 1; 2]) None = Ok (Fin hi)
    /\ In lo [3; 1; 2] /\ In hi [3; 1; 2]
    /\ (forall x, In x [3; 1; 2] -> lo <= x <= hi).
Proof. apply minimum_maximum_are_extremes. discriminate. Defined.

(** X2.  On a non-empty sample of finite numbers [range] returns the
    difference of the largest and the least element; it is never negative,
    and it is zero exactly when all elements are equal. *)
Theorem range_is_spread (xs : list R) (weights : option (list pyfloat)) :
  xs <> [] ->
  exists lo hi,
    In lo xs /\ In hi xs
    /\ (forall x, In x xs -> lo <= x <= hi)
    /\ range (map Fin xs) weights = Ok (Fin (hi - lo))
    /\ 0 <= hi - lo
    /\ (hi - lo = 0 <-> forall x y, In x xs -> In y xs -> x = y).
Proof.
  intros Hne. destruct xs as [| c t]; [contradiction |].
  destruct (min_from_fin t c) as [lo [Hlo [Hlin [Hlle Hlall]]]].
  destruct (max_from_fin t c) as [hi [Hhi [Hhin [Hhle Hhall]]]].
  assert (Hall : forall x, In x (c :: t) -> lo <= x <= hi).
  { intros x [<- | Hx]; [lra |]. split; [exact (Hlall x Hx) | exact (Hhall x Hx)]. }
  assert (Hl : In lo (c :: t)) by (simpl; intuition).
  assert (Hh : In hi (c :: t)) by (simpl; intuition).
  exists lo, hi. split; [exact Hl |]. split; [exact Hh |]. split; [exact Hall |].
  split.
  { unfold range. rewrite nan_in_never. cbn [negb map py_min py_max bind].
    rewrite Hlo, Hhi. reflexivity. }
  split; [lra |]. split.
  - intros H0 x y Hx Hy. pose proof (Hall x Hx). pose proof (Hall y Hy). lra.
  - intros Heq. rewrite (Heq hi lo Hh Hl). lra.
Qed.

Lemma range_is_spread_witness :
  exists lo hi,
    In lo [3; 1; 2] /\ In hi [3; 1; 2]
    /\ (forall x, In x [3; 1; 2] -> lo <= x <= hi)
    /\ range (map Fin [3; 1; 2]) None = Ok (Fin (hi - lo))
    /\ 0 <= hi - lo
    /\ (hi - lo = 0 <-> forall x y, In x [3; 1; 2] -> In y [3; 1; 2] -> x = y).
Proof. apply range_is_spread. discriminate. Defined.

Lemma min_from_nan (cur : pyfloat) (l : list pyfloat) :
  is_nan (min_from cur l) = is_nan cur.
Proof.
  revert cur. induction l as [| x t IH]; intros cur; [reflexivity |].
  cbn [min_from]. destruct (flt x cur) eqn:E; rewrite IH; [| reflexivity].
  destruct x, cur; simpl in *; try reflexivity; discriminate.
Qed.

Lemma max_from_nan (cur : pyfloat) (l : list pyfloat) :
  is_nan (max_from cur l) = is_nan cur.
Proof.
  revert cur. induction l as [| x t IH]; intros cur; [reflexivity |].
  cbn [max_from]. destruct (flt cur x) eqn:E; rewrite IH; [| reflexivity].
  destruct x, cur; simpl in *; try reflexivity; discriminate.
Qed.

(** X3.  Whether [minimum] and [maximum] return NaN depends on the first
    element alone: the result is NaN when the sample starts with NaN and is
    not NaN otherwise, wherever else NaN stands in the sample. *)
Theorem nan_result_follows_first_element (first : pyfloat) (rest : list pyfloat)
  (weights : option (list pyfloat)) :
  exists lo hi,
    minimum (first :: rest) weights = Ok lo
    /\ maximum (first :: rest) weights = Ok hi
    /\ is_nan lo = is_nan first
    /\ is_nan hi = is_nan first.
Proof.
  exists (min_from first rest), (max_from first rest).
  unfold minimum, maximum. rewrite nan_in_never.
  split; [reflexivity |]. split; [reflexivity |].
  split; [apply min_from_nan | apply max_from_nan].
Qed.

(** X4.  On the empty sample [minimum], [maximum] and [range] raise
    [ValueError], [mode] raises [IndexError] without weights and [ValueError]
    with the empty weights, and [n_numerical_modes] raises [ValueError] for
    every [n] and bin width; [mean], [inverse_mean], [avg_dev] and [std_dev]
    without weights raise nothing and return NaN, and with the empty weights
    [mean] raises [ZeroDivisionError]. *)
Theorem empty_sample_behaviour :
  (forall weights,
      minimum [] weights = Err ValueError
      /\ maximum [] weights = Err ValueError
      /\ range [] weights = Err ValueError)
  /\ mode [] None = Err IndexError
  /\ mode [] (Some []) = Err ValueError
  /\ (forall n dl, n_numerical_modes [] n dl = Err ValueError)
  /\ mean [] None = Ok NaN
  /\ inverse_mean [] None = Ok NaN
  /\ avg_dev [] None = Ok NaN
  /\ std_dev [] None = Ok NaN
  /\ mean [] (Some []) = Err ZeroDivisionError.
Proof.
  assert (Hm : np_mean [] = NaN).
  { unfold np_mean, np_sum, len_float. simpl. rewrite Reqb_refl, Rsign_zero.
    reflexivity. }
  split; [intros w; repeat split |].
  split; [reflexivity |]. split; [reflexivity |].
  split; [intros n dl; reflexivity |].
  split; [unfold mean, np_average; rewrite Hm; reflexivity |].
  split; [unfold inverse_mean, mean, np_average; cbn [mapM bind]; rewrite Hm;
          reflexivity |].
  split; [unfold avg_dev, mean, np_average; rewrite Hm; cbn [bind map];
          rewrite Hm; reflexivity |].
  split; [unfold std_dev, np_std; cbn [map]; fold (np_mean []); rewrite Hm;
          reflexivity |].
  unfold mean, np_average, np_sum. simpl. rewrite Reqb_refl. reflexivity.
Qed.

(** ** Errors of [mean] and what inherits them *)




(** ** The weighted mean lies within the sample *)




(** ** [avg_dev] *)

Lemma Rsum_weighted_nonneg (ws ys : list R) :
  Forall (fun w => 0 <= w) ws -> Forall (fun y => 0 <= y) ys ->
  0 <= Rsum (map2 Rmult ws ys).
Proof.
  intros Hw. revert ys. induction Hw as [| w ws Hw0 _ IH]; intros ys Hy; simpl;
    [lra |].
  destruct ys as [| y ys]; simpl; [lra |].
  inversion Hy as [| ? ? Hy0 Hys]; subst. specialize (IH ys Hys). nra.
Qed.

Lemma avg_dev_fin (xs ws : list R) :
  List.length xs = List.length ws -> Rsum ws <> 0 ->
  avg_dev (map Fin xs) (Some (map Fin ws)) = Ok (Fin (mean_abs_dev xs ws)).
Proof.
  intros Hlen Hw. unfold avg_dev. rewrite (mean_fin xs ws Hlen Hw). cbn [bind].
  rewrite map_map. cbn [fsub fneg fadd fabs].
  rewrite <- (map_map (fun x => Rabs (x + - weighted_mean xs ws)) Fin).
  change (np_average ?a ?b) with (mean a b).
  rewrite mean_fin by (rewrite ?length_map; assumption).
  reflexivity.
Qed.

(** X7.  On finite numbers [avg_dev] is the weighted mean of the absolute
    deviations from the weighted mean, [sum(w_i |x_i - m|) / sum(w_i)]; with
    non-negative weights of a positive sum it is never negative.  Without
    weights it is the mean absolute deviation from the arithmetic mean. *)
Theorem avg_dev_mean_absolute_deviation :
  (forall xs ws,
      List.length xs = List.length ws ->
      Forall (fun w => 0 <= w) ws ->
      0 < Rsum ws ->
      avg_dev (map Fin xs) (Some (map Fin ws)) = Ok (Fin (mean_abs_dev xs ws))
      /\ 0 <= mean_abs_dev xs ws)
  /\ (forall xs,
         xs <> [] ->
         avg_dev (map Fin xs) None = Ok (Fin (mean_abs_dev_uniform xs))
         /\ 0 <= mean_abs_dev_uniform xs).
Proof.
  split.
  - intros xs ws Hlen Hpos Hsum. split; [apply avg_dev_fin; [exact Hlen | lra] |].
    unfold mean_abs_dev, weighted_mean at 1.
    apply Rmult_le_pos; [| left; apply Rinv_0_lt_compat; exact Hsum].
    apply Rsum_weighted_nonneg; [exact Hpos |].
    apply Forall_forall. intros y Hy. apply in_map_iff in Hy.
    destruct Hy as [x [<- _]]. apply Rabs_pos.
  - intros xs Hne. split.
    + unfold avg_dev, mean, np_average. cbn [bind].
      rewrite (np_mean_fin xs Hne). rewrite map_map. cbn [fsub fneg fadd fabs].
      rewrite <- (map_map (fun x => Rabs (x + - arithmetic_mean xs)) Fin).
      rewrite np_mean_fin by (destruct xs; [contradiction | discriminate]).
      reflexivity.
    + unfold mean_abs_dev_uniform, arithmetic_mean at 1. rewrite length_map.
      apply Rmult_le_pos; [| left; apply Rinv_0_lt_compat; apply INR_length_pos;
                               exact Hne].
      clear Hne. induction xs as [| x t IH]; simpl; [lra |].
      generalize (arithmetic_mean (x :: t)). intros m.
      assert (Ht : 0 <= Rsum (map (fun y => Rabs (y - m)) t)).
      { clear. induction t as [| y t IH]; simpl; [lra |].
        pose proof (Rabs_pos (y - m)). lra. }
      pose proof (Rabs_pos (x - m)). lra.
Qed.

Lemma avg_dev_mean_absolute_deviation_witness :
  avg_dev (map Fin [1; 3]) (Some (map Fin [1; 1])) = Ok (Fin (mean_abs_dev [1; 3] [1; 1]))
  /\ 0 <= mean_abs_dev [1; 3] [1; 1].
Proof.
  apply (proj1 avg_dev_mean_absolute_deviation).
  - reflexivity.
  - repeat constructor; lra.
  - simpl. lra.
Defined.

(** ** [holder_mean] of power -1 and [inverse_mean] *)








(** ** Parameters of a statistic that do not fit *)




(** X10.  A statistic of the parameters [(data_lst, weights)] takes no
    parameter from the statistic's name: [calc_stat] raises [TypeError] on
    every identifier that names one of the nine and carries a parameter, and
    on ["holder_mean"] with two parameters or more, whatever the sample. *)
Theorem calc_stat_surplus_parameter (data_lst : list pyfloat) (stat : string)
  (weights : option (list pyfloat)) (name p : string) (ps : list string) :
  split_dunder stat = name :: p :: ps ->
  (In name [ "minimum"; "maximum"; "range"; "mean"; "inverse_mean"; "avg_dev";
             "std_dev"; "geom_std_dev"; "mode" ]%string
   \/ (name = "holder_mean"%string /\ ps <> [])) ->
  calc_stat data_lst stat weights = Err TypeError.
Proof.
  intros Hs Hn. unfold calc_stat. rewrite Hs.
  destruct Hn as [Hn | [-> Hps]].
  - cbn [In] in Hn.
    repeat (destruct Hn as [<- | Hn]; [reflexivity |]). contradiction.
  - destruct ps as [| q qs]; [contradiction | reflexivity].
Qed.

Lemma calc_stat_surplus_parameter_witness :
  calc_stat [Fin 1; Fin 2] "mean__3" None = Err TypeError.
Proof.
  apply (calc_stat_surplus_parameter _ "mean__3" None "mean" "3" []).
  - reflexivity.
  - left. cbn [In]. tauto.
Defined.

(** ** [sorted] *)

Lemma insert_sorted_perm (x : pyfloat) (l : list pyfloat) :
  Permutation (x :: l) (insert_sorted x l).
Proof.
  induction l as [| y t IH]; simpl; [reflexivity |].
  destruct (sort_le x y); [reflexivity |].
  rewrite perm_swap. constructor. exact IH.
Qed.

Lemma np_sort_perm (l : list pyfloat) : Permutation l (np_sort l).
Proof.
  unfold np_sort. induction l as [| x t IH]; simpl; [reflexivity |].
  rewrite <- insert_sorted_perm. constructor. exact IH.
Qed.

Lemma np_sort_fixed (l : list pyfloat) : sorted_le l -> np_sort l = l.
Proof.
  unfold sorted_le, np_sort. induction 1 as [| x t Ht IH Hx]; [reflexivity |].
  cbn [fold_right]. rewrite IH. destruct t as [| y t']; [reflexivity |].
  inversion Hx as [| ? ? Hxy _]; subst. cbn [insert_sorted]. rewrite Hxy.
  reflexivity.
Qed.

Lemma sorted_le_fin (ys : list R) :
  sorted_le (map Fin ys) -> StronglySorted Rle ys.
Proof.
  unfold sorted_le. induction ys as [| y t IH]; intros H; [constructor |].
  cbn [map] in H. inversion H as [| ? ? Ht Hy]; subst.
  constructor; [exact (IH Ht) |].
  rewrite Forall_forall in *. intros z Hz.
  specialize (Hy (Fin z) (in_map Fin t z Hz)).
  unfold sort_le, flt, Rltb in Hy. destruct (Rlt_dec z y); [discriminate | lra].
Qed.

Lemma sorted_nan_last (l : list pyfloat) :
  sorted_le l ->
  forall pre post x, l = (pre ++ NaN :: post)%list -> In x post -> x = NaN.
Proof.
  intros Hs pre post x -> Hx. unfold sorted_le in Hs.
  apply StronglySorted_app_r in Hs. inversion Hs as [| ? ? _ Hn]; subst.
  rewrite Forall_forall in Hn. specialize (Hn x Hx).
  destruct x; [discriminate | discriminate | discriminate | reflexivity].
Qed.

(** X11.  [sorted] returns a rearrangement of the sample in ascending order
    with every NaN after the numbers; sorting a second time changes nothing.
    On finite numbers the result is the sample's elements in non-decreasing
    order. *)
Theorem sorted_is_ascending_rearrangement :
  (forall l,
      Permutation l (sorted l)
      /\ sorted_le (sorted l)
      /\ sorted (sorted l) = sorted l
      /\ (forall pre post x,
             sorted l = (pre ++ NaN :: post)%list -> In x post -> x = NaN))
  /\ (forall xs,
         exists ys, sorted (map Fin xs) = map Fin ys
                    /\ Permutation xs ys /\ StronglySorted Rle ys).
Proof.
  split.
  - intros l. unfold sorted.
    split; [apply np_sort_perm |]. split; [apply np_sort_sorted |].
    split; [apply np_sort_fixed; apply np_sort_sorted |].
    apply sorted_nan_last. apply np_sort_sorted.
  - intros xs. unfold sorted.
    destruct (Permutation_map_inv Fin xs (Permutation_sym (np_sort_perm (map Fin xs))))
      as [ys [Hys Hperm]].
    exists ys. split; [exact Hys |]. split; [exact Hperm |].
    apply sorted_le_fin. rewrite <- Hys. apply np_sort_sorted.
Qed.

(** ** [mode] under equal weights *)

Lemma combine_repeat (xs : list R) (c x : R) :
  In x xs -> In (x, c) (combine xs (repeat c (List.length xs))).
Proof.
  induction xs as [| y t IH]; intros H; [contradiction |].
  simpl. destruct H as [-> | H]; [left; reflexivity | right; exact (IH H)].
Qed.

(** X12.  When every weight is the same finite number, [mode] returns the
    least element of the sample, not its most frequent one: on [[1, 2, 2]]
    it returns 2 without weights and 1 under the weights [[1, 1, 1]]. *)
Theorem mode_equal_weights_is_minimum :
  (forall xs c,
      xs <> [] ->
      exists r,
        mode (map Fin xs) (Some (map Fin (repeat c (List.length xs)))) = Ok (Fin r)
        /\ In r xs /\ (forall x, In x xs -> r <= x))
  /\ mode [Fin 1; Fin 2; Fin 2] None = Ok (Fin 2)
  /\ mode [Fin 1; Fin 2; Fin 2] (Some [Fin 1; Fin 1; Fin 1]) = Ok (Fin 1).
Proof.
  split.
  - intros xs c Hne.
    destruct (mode_weighted_fin xs (repeat c (List.length xs)))
      as [wmax [r [Hin [_ [Hm [[w [Hr _]] Hleast]]]]]].
    + destruct xs; [contradiction | discriminate].
    + rewrite repeat_length. reflexivity.
    + apply repeat_spec in Hin. subst wmax. exists r.
      split; [exact Hm |]. split; [exact (in_combine_l _ _ _ _ Hr) |].
      intros x Hx. apply (Hleast x c); [apply combine_repeat; exact Hx |].
      apply closeb_spec. apply closeb_refl.
  - split.
    + unfold mode, scipy_mode, np_unique, np_sort, mode_step, count_if. run.
      reflexivity.
    + unfold mode, np_max, np_min, bool_index, isclose, atol, rtol. run.
      reflexivity.
Qed.

Lemma mode_equal_weights_is_minimum_witness :
  exists r,
    mode (map Fin [1; 2; 2]) (Some (map Fin (repeat 5 (List.length [1; 2; 2]))))
    = Ok (Fin r)
    /\ In r [1; 2; 2] /\ (forall x, In x [1; 2; 2] -> r <= x).
Proof.
  apply (proj1 mode_equal_weights_is_minimum). discriminate.
Defined.

(** ** [holder_mean] of power 0 *)

Lemma fpow_pos (a b : R) : 0 < a -> fpow (Fin a) (Fin b) = Fin (Rpower a b).
Proof.
  intros Ha. unfold fpow. destruct (Req_dec_T b 0) as [-> | Hb].
  - rewrite Reqb_refl, Rpower_O by exact Ha. reflexivity.
  - rewrite Reqb_false by exact Hb. unfold fpow_fin.
    rewrite Reqb_false by exact Hb. rewrite Rsign_pos by exact Ha.
    destruct (Ris_int b) eqn:E; [| reflexivity].
    unfold Ris_int in E. apply Reqb_eq in E.
    rewrite powerRZ_Rpower by exact Ha. rewrite E. reflexivity.
Qed.

Lemma map2_fpow_fin (xs ss : list R) :
  Forall (fun x => 0 < x) xs ->
  map2 fpow (map Fin xs) (map Fin ss) = map Fin (map2 Rpower xs ss).
Proof.
  intros H. revert ss. induction H as [| x t Hx _ IH]; intros [| s ss];
    try reflexivity.
  cbn [map map2]. rewrite IH, fpow_pos by exact Hx. reflexivity.
Qed.

Lemma fold_fmul_fin (xs : list R) (a : R) :
  fold_left fmul (map Fin xs) (Fin a) = Fin (a * Rprod xs).
Proof.
  revert a. induction xs as [| x t IH]; intros a; simpl.
  - f_equal. lra.
  - rewrite IH. f_equal. lra.
Qed.

Lemma np_product_fin (xs : list R) : np_product (map Fin xs) = Fin (Rprod xs).
Proof. unfold np_product. rewrite fold_fmul_fin. f_equal. lra. Qed.

Lemma Rprod_powers (xs ss : list R) :
  List.length xs = List.length ss ->
  Rprod (map2 Rpower xs ss) = exp (Rsum (map2 (fun s x => s * ln x) ss xs)).
Proof.
  revert ss. induction xs as [| x t IH]; intros [| s ss] H; try discriminate; simpl.
  - symmetry. apply exp_0.
  - rewrite IH by (simpl in H; lia). rewrite exp_plus. reflexivity.
Qed.

Lemma Rsum_shares (W : R) (xs ws : list R) :
  Rsum (map2 (fun s x => s * ln x) (map (fun w => w / W) ws) xs) =
  Rsum (map2 (fun w x => w * ln x) ws xs) / W.
Proof.
  revert ws. induction xs as [| x t IH]; intros [| w ws]; simpl;
    try (unfold Rdiv; lra).
  rewrite IH. unfold Rdiv. lra.
Qed.

Lemma map_fdiv_fin (W : R) (ws : list R) :
  W <> 0 ->
  map (fun x => fdiv x (Fin W)) (map Fin ws) = map Fin (map (fun w => w / W) ws).
Proof.
  intros HW. induction ws as [| w t IH]; [reflexivity |].
  cbn [map]. rewrite IH, fdiv_fin by exact HW. reflexivity.
Qed.

Lemma holder_mean_zero_fin (xs ws : list R) :
  Forall (fun x => 0 < x) xs ->
  List.length xs = List.length ws ->
  Rsum ws <> 0 ->
  holder_mean (map Fin xs) (Some (map Fin ws)) (PowNum (Fin 0))
  = Ok (Fin (geometric_mean xs ws)).
Proof.
  intros Hx Hlen Hw. unfold holder_mean. cbn [bind feq]. rewrite Reqb_refl.
  rewrite np_sum_fin, (map_fdiv_fin _ ws Hw).
  unfold broadcast2. rewrite !length_map, Hlen, Nat.eqb_refl. cbn [bind].
  rewrite (map2_fpow_fin _ _ Hx), np_product_fin.
  rewrite Rprod_powers by (rewrite length_map; exact Hlen).
  rewrite Rsum_shares. reflexivity.
Qed.

Lemma map_flog_fin (xs : list R) :
  Forall (fun x => 0 < x) xs -> map flog (map Fin xs) = map Fin (map ln xs).
Proof.
  induction 1 as [| x t Hx _ IH]; [reflexivity |].
  cbn [map flog]. rewrite IH, Rsign_pos by exact Hx. reflexivity.
Qed.

Lemma Rsum_ones_weighted (f : R -> R) (xs : list R) :
  Rsum (map2 (fun w x => w * f x) (repeat 1 (List.length xs)) xs) = Rsum (map f xs).
Proof. induction xs as [| x t IH]; simpl; [reflexivity | rewrite IH; lra]. Qed.

Lemma Rsum_ones (n : nat) : Rsum (repeat 1 n) = INR n.
Proof.
  induction n as [| n IH]; [reflexivity |].
  cbn [repeat Rsum]. rewrite IH, S_INR. lra.
Qed.

Lemma Rprod_pos (xs : list R) : Forall (fun x => 0 < x) xs -> 0 < Rprod xs.
Proof.
  induction 1 as [| x t Hx _ IH]; simpl; [lra |].
  apply Rmult_lt_0_compat; assumption.
Qed.

Lemma ln_Rprod (xs : list R) :
  Forall (fun x => 0 < x) xs -> ln (Rprod xs) = Rsum (map ln xs).
Proof.
  induction 1 as [| x t Hx Ht IH]; simpl; [apply ln_1 |].
  rewrite ln_mult by (try assumption; apply Rprod_pos; assumption).
  rewrite IH. reflexivity.
Qed.

(** X13.  On positive data [holder_mean] of power 0 is the weighted
    geometric mean [exp(sum(w_i ln x_i) / sum(w_i))] for weights of the
    sample's length that do not sum to zero.  Without weights it is the
    geometric mean [prod(x_i) ^ (1 / n)], and the weights [[1] * n] give the
    same. *)
Theorem holder_mean_zero_is_geometric_mean :
  (forall xs ws,
      Forall (fun x => 0 < x) xs ->
      List.length xs = List.length ws ->
      Rsum ws <> 0 ->
      holder_mean (map Fin xs) (Some (map Fin ws)) (PowNum (Fin 0))
      = Ok (Fin (geometric_mean xs ws)))
  /\ (forall xs,
         Forall (fun x => 0 < x) xs ->
         xs <> [] ->
         holder_mean (map Fin xs) None (PowNum (Fin 0))
         = Ok (Fin (Rpower (Rprod xs) (1 / INR (List.length xs))))
         /\ holder_mean (map Fin xs) (Some (map Fin (repeat 1 (List.length xs))))
                        (PowNum (Fin 0))
            = holder_mean (map Fin xs) None (PowNum (Fin 0))).
Proof.
  split; [exact holder_mean_zero_fin |].
  intros xs Hx Hne.
  pose proof (INR_length_pos xs Hne) as Hn.
  assert (Hg : holder_mean (map Fin xs) None (PowNum (Fin 0))
               = Ok (Fin (exp (Rsum (map ln xs) / INR (List.length xs))))).
  { unfold holder_mean, gmean. cbn [bind feq]. rewrite Reqb_refl.
    rewrite (map_flog_fin xs Hx).
    rewrite np_mean_fin by (destruct xs; [contradiction | discriminate]).
    unfold arithmetic_mean. rewrite length_map. reflexivity. }
  split.
  - rewrite Hg. do 2 f_equal. unfold Rpower.
    rewrite (ln_Rprod xs Hx). f_equal. unfold Rdiv. lra.
  - rewrite Hg, holder_mean_zero_fin;
      [| exact Hx | rewrite repeat_length; reflexivity | rewrite Rsum_ones; lra].
    unfold geometric_mean. rewrite Rsum_ones_weighted, Rsum_ones. reflexivity.
Qed.

Lemma holder_mean_zero_is_geometric_mean_witness :
  holder_mean (map Fin [2; 8]) (Some (map Fin [1; 1])) (PowNum (Fin 0))
  = Ok (Fin (geometric_mean [2; 8] [1; 1])).
Proof.
  apply (proj1 holder_mean_zero_is_geometric_mean).
  - repeat constructor; lra.
  - reflexivity.
  - simpl. lra.
Defined.

(** ** [std_dev] under equal weights and on one observation *)

Lemma beta_of_fin (ws : list R) :
  Rsum ws * Rsum ws - Rsum (map (fun w => w * w) ws) <> 0 ->
  beta_of (map Fin ws) = Fin (reliability_beta ws).
Proof.
  intros Hd. unfold beta_of. rewrite np_sum_fin, fpow_two.
  rewrite map_map. cbn beta.
  rewrite (map_ext (fun x => fpow (Fin x) (Fin 2)) (fun x => Fin (x * x)))
    by (intros; apply fpow_two).
  rewrite <- (map_map (fun w => w * w) Fin), np_sum_fin.
  cbn [fsub fneg fadd]. rewrite fdiv_fin by (unfold Rminus in Hd; exact Hd).
  reflexivity.
Qed.

Lemma std_dev_weighted_fin (xs ws : list R) :
  List.length xs = List.length ws ->
  Forall (fun w => 0 <= w) ws ->
  Rsum (map (fun w => w * w) ws) < Rsum ws * Rsum ws ->
  std_dev (map Fin xs) (Some (map Fin ws)) = Ok (Fin (reliability_std xs ws)).
Proof.
  intros Hlen Hpos Hden.
  pose proof (Rsum_nonneg ws Hpos) as Hw0.
  pose proof (Rsum_squares_nonneg (fun w => w) ws) as Hsq.
  assert (Hw : Rsum ws <> 0) by nra.
  unfold std_dev. rewrite beta_of_fin by lra.
  rewrite (mean_fin xs ws Hlen Hw). cbn [bind].
  rewrite map_map. cbn [fsub fneg fadd].
  rewrite (map_ext (fun x => fpow (Fin (x + - weighted_mean xs ws)) (Fin 2))
                   (fun x => Fin ((x + - weighted_mean xs ws)
                                  * (x + - weighted_mean xs ws))))
    by (intros; apply fpow_two).
  rewrite <- (map_map (fun x => (x + - weighted_mean xs ws)
                                * (x + - weighted_mean xs ws)) Fin).
  unfold np_dot. rewrite !length_map, Hlen, Nat.eqb_refl.
  rewrite (map2_fin fmul Rmult) by reflexivity.
  rewrite np_sum_fin. cbn [bind fmul].
  rewrite Rsum_map2_weighted. fold (weighted_sq_dev xs ws).
  unfold fsqrt. rewrite Rltb_false; [reflexivity |].
  apply Rmult_le_pos.
  - unfold reliability_beta. apply Rmult_le_pos; [exact Hw0 |].
    left. apply Rinv_0_lt_compat. lra.
  - apply Rsum_map2_nonneg. exact Hpos.
Qed.

Lemma Rsum_ones_mult (xs : list R) :
  Rsum (map2 Rmult (repeat 1 (List.length xs)) xs) = Rsum xs.
Proof. induction xs as [| x t IH]; simpl; [reflexivity | rewrite IH; lra]. Qed.

Lemma Rsum_ones_squares (n : nat) : Rsum (map (fun w => w * w) (repeat 1 n)) = INR n.
Proof.
  induction n as [| n IH]; [reflexivity |].
  cbn [repeat map Rsum]. rewrite IH, S_INR. lra.
Qed.

Lemma ones_nonneg (n : nat) : Forall (fun w => 0 <= w) (repeat 1 n).
Proof. induction n; constructor; [lra | assumption]. Qed.

(** X14.  On a finite sample of two elements or more, [std_dev] under the
    weights [[1] * n] is the sample standard deviation, which divides by
    [n - 1], while [std_dev] without weights is the population standard
    deviation, which divides by [n]; the first is never the smaller. *)
Theorem std_dev_equal_weights_is_sample_std (xs : list R) :
  (2 <= List.length xs)%nat ->
  std_dev (map Fin xs) (Some (map Fin (repeat 1 (List.length xs))))
  = Ok (Fin (sample_std xs))
  /\ std_dev (map Fin xs) None = Ok (Fin (population_std xs))
  /\ population_std xs <= sample_std xs.
Proof.
  intros Hn.
  assert (Hn2 : 2 <= INR (List.length xs)) by (apply (le_INR 2); exact Hn).
  set (n := INR (List.length xs)) in *.
  pose proof (Rsum_squares_nonneg (fun x => x - arithmetic_mean xs) xs) as HS.
  split; [| split].
  - rewrite std_dev_weighted_fin.
    + do 2 f_equal. unfold reliability_std, sample_std. f_equal.
      assert (Hm : weighted_mean xs (repeat 1 (List.length xs)) = arithmetic_mean xs).
      { unfold weighted_mean, arithmetic_mean. rewrite Rsum_ones_mult, Rsum_ones.
        reflexivity. }
      unfold reliability_beta, weighted_sq_dev.
      rewrite Hm, Rsum_ones, Rsum_ones_squares.
      rewrite (Rsum_ones_weighted
                 (fun x => (x - arithmetic_mean xs) * (x - arithmetic_mean xs))).
      fold n. field. split; nra.
    + rewrite repeat_length. reflexivity.
    + apply ones_nonneg.
    + rewrite Rsum_ones, Rsum_ones_squares. fold n. nra.
  - unfold std_dev. rewrite np_std_fin; [reflexivity |].
    destruct xs; [simpl in Hn; lia | discriminate].
  - unfold population_std, sample_std. fold n. apply sqrt_le_1_alt.
    unfold Rdiv. apply Rmult_le_compat_l; [exact HS |].
    apply Rinv_le_contravar; lra.
Qed.

Lemma std_dev_equal_weights_is_sample_std_witness :
  std_dev (map Fin [1; 3]) (Some (map Fin (repeat 1 (List.length [1; 3]))))
  = Ok (Fin (sample_std [1; 3]))
  /\ std_dev (map Fin [1; 3]) None = Ok (Fin (population_std [1; 3]))
  /\ population_std [1; 3] <= sample_std [1; 3].
Proof. apply std_dev_equal_weights_is_sample_std. simpl. lia. Defined.



(** ** [geom_std_dev] *)

Lemma map_log_ratio_fin (g : R) (xs : list R) :
  0 < g -> Forall (fun x => 0 < x) xs ->
  map (fun x => flog (fdiv x (Fin g))) (map Fin xs)
  = map Fin (map (fun x => ln (x / g)) xs).
Proof.
  intros Hg. induction 1 as [| x t Hx _ IH]; [reflexivity |].
  cbn [map]. rewrite IH, fdiv_fin by lra. cbn [flog].
  rewrite Rsign_pos; [reflexivity |].
  apply Rmult_lt_0_compat; [exact Hx | apply Rinv_0_lt_compat; exact Hg].
Qed.

Lemma exp_ge_1 (r : R) : 0 <= r -> 1 <= exp r.
Proof.
  intros [Hr | <-]; [| rewrite exp_0; lra].
  rewrite <- exp_0. left. apply exp_increasing. exact Hr.
Qed.

Lemma geom_std_dev_fin (xs ws : list R) :
  Forall (fun x => 0 < x) xs ->
  List.length xs = List.length ws ->
  Forall (fun w => 0 <= w) ws ->
  Rsum (map (fun w => w * w) ws) < Rsum ws * Rsum ws ->
  geom_std_dev (map Fin xs) (Some (map Fin ws))
  = Ok (Fin (sqrt (exp (reliability_beta ws * weighted_sq_log_dev xs ws)))).
Proof.
  intros Hx Hlen Hpos Hden.
  pose proof (Rsum_nonneg ws Hpos) as Hw0.
  pose proof (Rsum_squares_nonneg (fun w => w) ws) as Hsq.
  assert (Hw : Rsum ws <> 0) by nra.
  unfold geom_std_dev.
  rewrite (holder_mean_zero_fin xs ws Hx Hlen Hw). cbn [bind].
  rewrite beta_of_fin by lra.
  rewrite (map_log_ratio_fin (geometric_mean xs ws) xs (exp_pos _) Hx).
  rewrite map_map.
  rewrite (map_ext (fun x => fpow (Fin x) (Fin 2)) (fun x => Fin (x * x)))
    by (intros; apply fpow_two).
  rewrite map_map.
  rewrite <- (map_map (fun x => ln (x / geometric_mean xs ws)
                                * ln (x / geometric_mean xs ws)) Fin).
  unfold np_dot. rewrite !length_map, Hlen, Nat.eqb_refl.
  rewrite (map2_fin fmul Rmult) by reflexivity.
  rewrite np_sum_fin. cbn [bind fmul fexp].
  fold (weighted_sq_log_dev xs ws).
  unfold fsqrt. rewrite Rltb_false by (left; apply exp_pos). reflexivity.
Qed.

(** X16.  For positive data and non-negative weights of the sample's length
    with [sum(w)^2 > sum(w^2)], [geom_std_dev] returns
    [sqrt(exp(beta * sum(w_i ln(x_i / g)^2)))] about the weighted geometric
    mean [g], a number that is never below 1.  Without weights it is the
    same under the weights [[1] * n], for two elements or more. *)
Theorem geom_std_dev_at_least_one :
  (forall xs ws,
      Forall (fun x => 0 < x) xs ->
      List.length xs = List.length ws ->
      Forall (fun w => 0 <= w) ws ->
      Rsum (map (fun w => w * w) ws) < Rsum ws * Rsum ws ->
      geom_std_dev (map Fin xs) (Some (map Fin ws))
      = Ok (Fin (sqrt (exp (reliability_beta ws * weighted_sq_log_dev xs ws))))
      /\ 1 <= sqrt (exp (reliability_beta ws * weighted_sq_log_dev xs ws)))
  /\ (forall xs,
         Forall (fun x => 0 < x) xs ->
         (2 <= List.length xs)%nat ->
         exists g, geom_std_dev (map Fin xs) None = Ok (Fin g) /\ 1 <= g).
Proof.
  assert (H : forall xs ws,
      Forall (fun x => 0 < x) xs ->
      List.length xs = List.length ws ->
      Forall (fun w => 0 <= w) ws ->
      Rsum (map (fun w => w * w) ws) < Rsum ws * Rsum ws ->
      geom_std_dev (map Fin xs) (Some (map Fin ws))
      = Ok (Fin (sqrt (exp (reliability_beta ws * weighted_sq_log_dev xs ws))))
      /\ 1 <= sqrt (exp (reliability_beta ws * weighted_sq_log_dev xs ws))).
  { intros xs ws Hx Hlen Hpos Hden.
    split; [apply geom_std_dev_fin; assumption |].
    rewrite <- sqrt_1 at 1. apply sqrt_le_1_alt. apply exp_ge_1.
    pose proof (Rsum_nonneg ws Hpos) as Hw0.
    apply Rmult_le_pos.
    - unfold reliability_beta. apply Rmult_le_pos; [exact Hw0 |].
      left. apply Rinv_0_lt_compat. lra.
    - unfold weighted_sq_log_dev. apply Rsum_weighted_nonneg; [exact Hpos |].
      apply Forall_forall. intros y Hy. apply in_map_iff in Hy.
      destruct Hy as [x [<- _]].
      pose proof (Rle_0_sqr (ln (x / geometric_mean xs ws))) as Hs.
      exact Hs. }
  split; [exact H |].
  intros xs Hx Hn.
  assert (Hn2 : 2 <= INR (List.length xs)) by (apply (le_INR 2); exact Hn).
  destruct (H xs (repeat 1 (List.length xs)) Hx) as [Hg Hge].
  - rewrite repeat_length. reflexivity.
  - apply ones_nonneg.
  - rewrite Rsum_ones, Rsum_ones_squares. nra.
  - eexists. split; [| exact Hge]. rewrite <- Hg.
    unfold geom_std_dev.
    replace (map (fun _ : pyfloat => Fin 1) (map Fin xs))
      with (map Fin (repeat 1 (List.length xs))); [reflexivity |].
    clear. induction xs as [| x t IH]; [reflexivity |].
    cbn [List.length repeat map]. rewrite IH. reflexivity.
Qed.

Lemma geom_std_dev_at_least_one_witness :
  exists g, geom_std_dev (map Fin [2; 8]) None = Ok (Fin g) /\ 1 <= g.
Proof.
  apply (proj2 geom_std_dev_at_least_one).
  - repeat constructor; lra.
  - simpl. lia.
Defined.

(** ** The kernels as similarities *)










(** ** The statistic's name and its tokens *)

Local Open Scope string_scope.

Lemma join_dunder_cons (c : ascii) (t : string) (ts : list string) :
  join_dunder (String c t :: ts) = String c (join_dunder (t :: ts)).
Proof. destruct ts; reflexivity. Qed.

Lemma join_split_dunder (s : string) : join_dunder (split_dunder s) = s.
Proof.
  induction s as [s IH] using (well_founded_induction
    (well_founded_ltof _ String.length)).
  destruct s as [| c rest]; [reflexivity |].
  destruct (split_dunder_cons c rest) as [[-> [r ->]] | [E _]].
  - change (split_dunder (String "_" (String "_" r)))
      with (EmptyString :: split_dunder r).
    assert (Hr : join_dunder (split_dunder r) = r)
      by (apply IH; unfold ltof; simpl; lia).
    destruct (split_dunder r) as [| t ts] eqn:Et.
    + exfalso. exact (split_dunder_not_nil r Et).
    + change (join_dunder (EmptyString :: t :: ts))
        with (String "_" (String "_" (join_dunder (t :: ts)))).
      rewrite Hr. reflexivity.
  - rewrite E. unfold split_step.
    assert (Hr : join_dunder (split_dunder rest) = rest)
      by (apply IH; unfold ltof; simpl; lia).
    destruct (split_dunder rest) as [| t ts] eqn:Et.
    + exfalso. exact (split_dunder_not_nil rest Et).
    + rewrite join_dunder_cons, Hr. reflexivity.
Qed.

(** X18.  The tokens [calc_stat] cuts a statistic's name into, joined again
    with ["__"], give the name back; so two names of the same tokens are the
    same name, and [calc_stat] never confuses two identifiers. *)
Theorem split_then_join_is_identity :
  (forall stat, join_dunder (split_dunder stat) = stat)
  /\ (forall s1 s2, split_dunder s1 = split_dunder s2 -> s1 = s2).
Proof.
  split; [exact join_split_dunder |].
  intros s1 s2 H. rewrite <- (join_split_dunder s1), <- (join_split_dunder s2), H.
  reflexivity.
Qed.

Local Open Scope R_scope.

(** ** [n_numerical_modes] on a sample of two values or more *)











(** ** What [calc_stat] can return *)






(** ** Weights that [mode] cannot use *)

Lemma isclose_nan_r (x : pyfloat) : isclose x NaN = false.
Proof. destruct x; reflexivity. Qed.

Lemma select_none (a : list pyfloat) (mask : list bool) :
  Forall (fun m => m = false) mask -> select a mask = [].
Proof.
  intros H. revert a. induction H as [| m t Hm _ IH]; intros [| x a];
    try reflexivity.
  cbn [select]. rewrite Hm. apply IH.
Qed.

Lemma np_max_nan (w : list pyfloat) : In NaN w -> np_max w = Ok NaN.
Proof.
  intros H. unfold np_max. destruct w as [| x t]; [contradiction |].
  assert (E : existsb is_nan (x :: t) = true)
    by (apply existsb_exists; exists NaN; split; [exact H | reflexivity]).
  rewrite E. reflexivity.
Qed.

(** X21.  With weights, [mode] raises [ValueError] on empty weights,
    [IndexError] when the weights are not empty and their number differs
    from the sample's, and [ValueError] when the lengths agree and a weight
    is NaN: the largest weight is then NaN, no weight is close to it, and the
    minimum of no entry is taken. *)
Theorem mode_unusable_weights (data_lst w : list pyfloat) :
  mode data_lst (Some []) = Err ValueError
  /\ (w <> [] -> List.length data_lst <> List.length w ->
      mode data_lst (Some w) = Err IndexError)
  /\ (List.length data_lst = List.length w -> In NaN w ->
      mode data_lst (Some w) = Err ValueError).
Proof.
  split; [reflexivity |]. split.
  - intros Hne Hlen. unfold mode.
    destruct (np_max w) as [wmax | e] eqn:E.
    + cbn [bind]. unfold bool_index. rewrite length_map.
      rewrite (proj2 (Nat.eqb_neq _ _) Hlen). reflexivity.
    + destruct w; [contradiction | discriminate].
  - intros Hlen Hnan. unfold mode. rewrite (np_max_nan w Hnan). cbn [bind].
    unfold bool_index. rewrite length_map, Hlen, Nat.eqb_refl.
    rewrite select_none; [reflexivity |].
    apply Forall_forall. intros m Hm. apply in_map_iff in Hm.
    destruct Hm as [x [<- _]]. apply isclose_nan_r.
Qed.

Lemma mode_unusable_weights_witness :
  mode [Fin 1; Fin 2] (Some [Fin 1; NaN]) = Err ValueError.
Proof.
  apply (proj2 (proj2 (mode_unusable_weights [Fin 1; Fin 2] [Fin 1; NaN]))).
  - reflexivity.
  - right. left. reflexivity.
Defined.
